(** * asgotypes.GoPrimitive: decoding tftypes.Value to Go values and back

    A shallow embedding of [asgotypes/primitive.go].  The file has three
    layers:

    - the Go values the code handles through [interface{}] and the part of
      package [reflect] it calls on them;
    - the part of [tftypes] (an external package) the code calls:
      types, values, [NewValue], [Value.As], [Is];
    - the source itself: [FromTerraform5Value], [ToTerraform5Value],
      [marshal] and its five helpers.

    Go maps are association lists: the order of the list is the order in
    which [range] and [MapKeys] happen to enumerate the map, which Go leaves
    unspecified; statements quantify over the list and so over every order.
    A map the code builds lists its entries in the order of their first
    assignment. *)

From Stdlib Require Import String Ascii List ZArith Bool Lia.
Import ListNotations.
Local Open Scope string_scope.
Local Open Scope list_scope.
#[local] Set Warnings "-register-all".

(** ** Go values behind [interface{}] *)

(** [*big.Float], by the number it holds: [mant * 2^exp].  Infinities, the
    sign of zero and the bounds of the exponent are left out, and so is the
    precision the float was created with: two floats are the same here when
    they hold the same number in normal form.  The source never computes
    with numbers; it moves them, and [Value.As] copies one into a float of
    fixed precision with [Set], which rounds. *)
Record big_Float := { mant : Z; exp : Z }.

Definition big_Float_eqb (x y : big_Float) : bool :=
  Z.eqb (mant x) (mant y) && Z.eqb (exp x) (exp y).

(** Normal form: the mantissa is odd, or the number is zero. *)
Definition big_Float_normal (x : big_Float) : big_Float :=
  if Z.eqb (mant x) 0 then {| mant := 0; exp := 0 |}
  else
    let low := Z.log2 (Z.land (mant x) (- mant x)) in
    {| mant := Z.shiftr (mant x) low; exp := (exp x + low)%Z |}.

(** Rounding to [prec] significant bits, to nearest, ties to even
    ([big.ToNearestEven], the mode of a float made by [big.NewFloat]). *)
Definition big_Float_round (prec : Z) (x : big_Float) : big_Float :=
  let m := Z.abs (mant x) in
  let drop := (Z.log2 m + 1 - prec)%Z in
  if Z.eqb m 0 || Z.leb drop 0 then x
  else
    let q := Z.shiftr m drop in
    let r := (m - Z.shiftl q drop)%Z in
    let half := Z.shiftl 1 (drop - 1) in
    let q' := if Z.ltb half r || (Z.eqb r half && Z.odd q)
              then (q + 1)%Z else q in
    {| mant := (Z.sgn (mant x) * q')%Z; exp := (exp x + drop)%Z |}.

(** [z.Set(x)] on a [z] of precision [prec]: the number [z] holds after. *)
Definition big_Float_Set (prec : Z) (x : big_Float) : big_Float :=
  big_Float_normal (big_Float_round prec x).

(** The precision of [big.NewFloat(x)]. *)
Definition NewFloat_prec : Z := 53.

(** The Go types of the values the code can meet.  [Tint] stands for the
    scalar types the decoder never produces. *)
Inductive GoType :=
| Tbool
| Tint
| Tstring
| TptrBigFloat                       (* *big.Float *)
| Tinterface                         (* interface{} *)
| Tslice (elem : GoType)             (* []elem *)
| Tmap (key elem : GoType).          (* map[key]elem *)

(** A value of static type [interface{}]: nil, a scalar, a slice or a map.
    Slices and maps carry their element types, which is what [reflect]
    reads back.  A nil slice is told from an empty one, as the decoder
    produces both. *)
Inductive GoValue :=
| Vnil                                               (* the nil interface *)
| Vbool (b : bool)
| Vint (n : Z)
| Vstring (s : string)
| VbigFloat (f : big_Float)
| VnilSlice (elem : GoType)                          (* var s []elem *)
| Vslice (elem : GoType) (xs : list GoValue)         (* []elem{...} *)
| Vmap (key elem : GoType) (kvs : list (GoValue * GoValue)).

Fixpoint GoType_eqb (a b : GoType) : bool :=
  match a, b with
  | Tbool, Tbool | Tint, Tint | Tstring, Tstring
  | TptrBigFloat, TptrBigFloat | Tinterface, Tinterface => true
  | Tslice a', Tslice b' => GoType_eqb a' b'
  | Tmap ka ea, Tmap kb eb => GoType_eqb ka kb && GoType_eqb ea eb
  | _, _ => false
  end.

(** ** Errors and the three ways a Go call ends *)

Inductive fmt_arg :=
| Astring (s : string)
| Avalue (v : GoValue).

(** [errors.New(text)] and [fmt.Errorf(format, args...)], kept unrendered.
    [As_error] is the error [tftypes.Value.As] returns when the payload does
    not have the representation asked for. *)
Inductive error :=
| errors_New (text : string)
| fmt_Errorf (format : string) (args : list fmt_arg)
| As_error (target : string).

Inductive panic :=
| nil_dereference                    (* method call on a nil interface *)
| index_out_of_range                 (* reflect.Value.Index *)
| type_assertion                     (* x.(string) on a non-string *)
| reflect_nil_Type                   (* SliceOf / MapOf on a nil Type *)
| reflect_zero_Value                 (* Append of the zero Value *)
| reflect_wrong_Kind                 (* MakeSlice of a non-slice type, ... *)
| NewValue_unknown_type              (* tftypes.NewValue on a Go value it does not take *)
| reflect_not_assignable (have want : GoType).

Inductive result (A : Type) :=
| Ok (a : A)
| Err (e : error)
| Panic (p : panic).
Arguments Ok {A} a.
Arguments Err {A} e.
Arguments Panic {A} p.

Definition bind {A B} (r : result A) (k : A -> result B) : result B :=
  match r with
  | Ok a => k a
  | Err e => Err e
  | Panic p => Panic p
  end.

Notation "x <- r ;; k" := (bind r (fun x => k))
  (at level 61, r at next level, right associativity).

(** ** Association lists for Go maps with string keys *)

Section assoc.
Context {A : Type}.

Fixpoint lookup (k : string) (m : list (string * A)) : option A :=
  match m with
  | [] => None
  | (k', a) :: rest => if String.eqb k k' then Some a else lookup k rest
  end.

(** [m[k] = a] *)
Fixpoint assign (k : string) (a : A) (m : list (string * A))
  : list (string * A) :=
  match m with
  | [] => [(k, a)]
  | (k', a') :: rest =>
      if String.eqb k k' then (k, a) :: rest else (k', a') :: assign k a rest
  end.

Definition keys (m : list (string * A)) : list string := map fst m.
End assoc.

(** ** Package reflect, as far as the source uses it *)

Module reflect.

Inductive Kind :=
| Invalid | Bool | Int | Interface | Map | Ptr | Slice | String.

Definition Kind_String (k : Kind) : string :=
  match k with
  | Invalid => "invalid"
  | Bool => "bool"
  | Int => "int"
  | Interface => "interface"
  | Map => "map"
  | Ptr => "ptr"
  | Slice => "slice"
  | String => "string"
  end.

(** [t.Kind()] *)
Definition Type_Kind (t : GoType) : Kind :=
  match t with
  | Tbool => Bool
  | Tint => Int
  | Tstring => String
  | TptrBigFloat => Ptr
  | Tinterface => Interface
  | Tslice _ => Slice
  | Tmap _ _ => Map
  end.

(** [reflect.TypeOf(i)]: nil for the nil interface. *)
Definition TypeOf (i : GoValue) : option GoType :=
  match i with
  | Vnil => None
  | Vbool _ => Some Tbool
  | Vint _ => Some Tint
  | Vstring _ => Some Tstring
  | VbigFloat _ => Some TptrBigFloat
  | VnilSlice t => Some (Tslice t)
  | Vslice t _ => Some (Tslice t)
  | Vmap k e _ => Some (Tmap k e)
  end.

(** [reflect.ValueOf(i).Kind()]: [Invalid] for the nil interface. *)
Definition Kind_of (i : GoValue) : Kind :=
  match TypeOf i with
  | None => Invalid
  | Some t => Type_Kind t
  end.

(** [reflect.SliceOf(t)] *)
Definition SliceOf (t : option GoType) : result GoType :=
  match t with
  | None => Panic reflect_nil_Type
  | Some t => Ok (Tslice t)
  end.

(** [reflect.MapOf(key, elem)] *)
Definition MapOf (key : GoType) (elem : option GoType) : result GoType :=
  match elem with
  | None => Panic reflect_nil_Type
  | Some e => Ok (Tmap key e)
  end.

(** [reflect.MakeSlice(t, 0, n)] and [reflect.MakeMapWithSize(t, n)]: the
    new container is empty; what is returned is the element type it
    accepts. *)
Definition MakeSlice (t : GoType) : result GoType :=
  match t with
  | Tslice elem => Ok elem
  | _ => Panic reflect_wrong_Kind
  end.

Definition MakeMapWithSize (t : GoType) : result GoType :=
  match t with
  | Tmap _ elem => Ok elem
  | _ => Panic reflect_wrong_Kind
  end.

(** [reflect.Append(s, reflect.ValueOf(x))] on a slice of element type
    [elem]: [x] has to be assignable to [elem].  [elem] always comes from
    [TypeOf], so it is never an interface type and assignable means
    identical. *)
Definition Append (elem : GoType) (s : list GoValue) (x : GoValue)
  : result (list GoValue) :=
  match TypeOf x with
  | None => Panic reflect_zero_Value
  | Some t =>
      if GoType_eqb t elem then Ok (s ++ [x])
      else Panic (reflect_not_assignable t elem)
  end.

(** [m.SetMapIndex(reflect.ValueOf(k), reflect.ValueOf(x))] on a
    [map[string]elem]: the zero Value deletes the key. *)
Definition SetMapIndex (elem : GoType) (m : list (string * GoValue))
           (k : string) (x : GoValue) : result (list (string * GoValue)) :=
  match TypeOf x with
  | None => Ok (filter (fun kv => negb (String.eqb k (fst kv))) m)
  | Some t =>
      if GoType_eqb t elem then Ok (assign k x m)
      else Panic (reflect_not_assignable t elem)
  end.

(** [v.Len()] and [v.Index(i).Interface()] on a value of kind Slice. *)
Definition elements (i : GoValue) : list GoValue :=
  match i with
  | Vslice _ xs => xs
  | _ => []
  end.

Definition Index (i : GoValue) (n : nat) : result GoValue :=
  match nth_error (elements i) n with
  | Some x => Ok x
  | None => Panic index_out_of_range
  end.

End reflect.

(** ** Package tftypes, as far as the source uses it

    [tftypes] is an external package.  What is embedded here is the
    behaviour the source relies on: the closed set of types, values that are
    unknown, null or carry a payload, [NewValue] storing under the type it
    is given the payload it is given when that is nil, a [string], a
    [*big.Float], a [bool], a [[]Value] or a [map[string]Value] and
    panicking on every other Go value, and [As] handing the payload back
    when it has the representation asked for.  A [Value] always has a type: the
    zero [Value{}] the source returns next to an error is the [Err] and
    [Panic] of [result], which carry no value. *)

Module tftypes.

Inductive Type_ :=
| String
| Number
| Bool
| DynamicPseudoType
| Object (AttributeTypes : list (string * Type_))
| Tuple (ElementTypes : list Type_)
| List (ElementType : Type_)
| Set_ (ElementType : Type_)
| Map (AttributeType : Type_).

Fixpoint Type_eqb (a b : Type_) {struct a} : bool :=
  match a, b with
  | String, String | Number, Number | Bool, Bool
  | DynamicPseudoType, DynamicPseudoType => true
  | Object x, Object y =>
      (fix attrs (x y : list (string * Type_)) : bool :=
         match x, y with
         | [], [] => true
         | (k, t) :: x', (k', t') :: y' =>
             String.eqb k k' && Type_eqb t t' && attrs x' y'
         | _, _ => false
         end) x y
  | Tuple x, Tuple y =>
      (fix elems (x y : list Type_) : bool :=
         match x, y with
         | [], [] => true
         | t :: x', t' :: y' => Type_eqb t t' && elems x' y'
         | _, _ => false
         end) x y
  | List x, List y | Set_ x, Set_ y | Map x, Map y => Type_eqb x y
  | _, _ => false
  end.

Definition is_primitive (t : Type_) : bool :=
  match t with
  | String | Number | Bool => true
  | _ => false
  end.

(** [p.Is(tftypes.String)], ..., [p.Is(tftypes.Map{})]: the source only
    asks [Is] about the three primitives and about the zero values
    [Object{}], [Tuple{}], [List{}], [Set{}], [Map{}], for which [Is]
    compares the kind and nothing else. *)
Definition Is_String (p : Type_) : bool :=
  match p with String => true | _ => false end.
Definition Is_Number (p : Type_) : bool :=
  match p with Number => true | _ => false end.
Definition Is_Bool (p : Type_) : bool :=
  match p with Bool => true | _ => false end.
Definition Is_Object (p : Type_) : bool :=
  match p with Object _ => true | _ => false end.
Definition Is_Tuple (p : Type_) : bool :=
  match p with Tuple _ => true | _ => false end.
Definition Is_List (p : Type_) : bool :=
  match p with List _ => true | _ => false end.
Definition Is_Set (p : Type_) : bool :=
  match p with Set_ _ => true | _ => false end.
Definition Is_Map (p : Type_) : bool :=
  match p with Map _ => true | _ => false end.

(** What a [Value] holds in its [interface{}] field: nil, the unknown
    marker, a plain Go value, [[]Value] or [map[string]Value]. *)
Inductive payload (V : Type) :=
| null
| unknown
| raw (g : GoValue)
| values (vals : list V)
| attributes (msv : list (string * V)).
Arguments null {V}.
Arguments unknown {V}.
Arguments raw {V} g.
Arguments values {V} vals.
Arguments attributes {V} msv.

Inductive Value :=
| mkValue (typ : Type_) (value : payload Value).

Definition typ (v : Value) : Type_ := let 'mkValue t _ := v in t.
Definition value (v : Value) : payload Value := let 'mkValue _ p := v in p.

Definition IsKnown (v : Value) : bool :=
  match value v with unknown => false | _ => true end.

Definition IsNull (v : Value) : bool :=
  match value v with null => true | _ => false end.

(** A Go value passed as the [interface{}] argument of [NewValue]. *)
Definition of_interface (i : GoValue) : payload Value :=
  match i with
  | Vnil => null
  | _ => raw i
  end.

(** The Go values [NewValue] takes as they are. *)
Definition NewValue_takes (g : GoValue) : bool :=
  match g with
  | Vstring _ | VbigFloat _ | Vbool _ => true
  | _ => false
  end.

(** [tftypes.NewValue(t, val)].  The type is not compared with the
    payload. *)
Definition NewValue (t : Type_) (val : payload Value) : result Value :=
  match val with
  | raw g =>
      if NewValue_takes g then Ok (mkValue t val)
      else Panic NewValue_unknown_type
  | _ => Ok (mkValue t val)
  end.

(** [value.As(&str)], [value.As(&num)], [value.As(&b)] on a value that is
    neither unknown nor null. *)
Definition As_string (p : payload Value) : result string :=
  match p with
  | raw (Vstring s) => Ok s
  | _ => Err (As_error "*string")
  end.

(** [value.As(&num)] with [num := big.NewFloat(-42)]: [As] does
    [num.Set(payload)], and [num] keeps the precision [NewFloat] gave
    it. *)
Definition As_big_Float (p : payload Value) : result big_Float :=
  match p with
  | raw (VbigFloat f) => Ok (big_Float_Set NewFloat_prec f)
  | _ => Err (As_error "**big.Float")
  end.

Definition As_bool (p : payload Value) : result bool :=
  match p with
  | raw (Vbool b) => Ok b
  | _ => Err (As_error "*bool")
  end.

End tftypes.

(** ** The source: package asgotypes *)

Module asgotypes.

Record GoPrimitive := {
  Type_ : option tftypes.Type_;       (* nil or a tftypes.Type *)
  Value : GoValue
}.

(** [var vgp GoPrimitive] *)
Definition zero : GoPrimitive := {| Type_ := None; Value := Vnil |}.

(** How a call of [FromTerraform5Value] ends; the receiver it leaves
    behind is returned next to it. *)
Inductive completion :=
| returns_nil
| returns (e : error)
| panics (p : panic).

(** [dt.Value = g; return nil], or leave [dt] as it is and return the
    error. *)
Definition finish (dt : GoPrimitive) (r : result GoValue)
  : GoPrimitive * completion :=
  match r with
  | Ok g => ({| Type_ := Type_ dt; Value := g |}, returns_nil)
  | Err e => (dt, returns e)
  | Panic p => (dt, panics p)
  end.

Section loops.
(** [var vgp GoPrimitive; err = v.As(&vgp)]: [As] finds that
    [*GoPrimitive] has a [FromTerraform5Value] method and calls it. *)
Variable As_vgp : tftypes.Value -> GoPrimitive * completion.

Definition decoded (v : tftypes.Value) : result GoValue :=
  match As_vgp v with
  | (vgp, returns_nil) => Ok (Value vgp)
  | (_, returns e) => Err e
  | (_, panics p) => Panic p
  end.

(** [for k, v := range msv { ...; res[k] = vgp.Value }] *)
Fixpoint range_msv (msv : list (string * tftypes.Value))
         (res : list (string * GoValue))
  : result (list (string * GoValue)) :=
  match msv with
  | [] => Ok res
  | (k, v) :: rest =>
      x <- decoded v ;;
      range_msv rest (assign k x res)
  end.

(** [for _, v := range vals { ...; res = append(res, vgp.Value) }] *)
Fixpoint range_vals (vals : list tftypes.Value) (res : list GoValue)
  : result (list GoValue) :=
  match vals with
  | [] => Ok res
  | v :: rest =>
      x <- decoded v ;;
      range_vals rest (res ++ [x])
  end.

(** The Map loop, which also picks [typ]:
    [if typ == nil { typ = reflect.TypeOf(vgp.Value) }; tmp[k] = vgp.Value] *)
Fixpoint range_msv_typ (msv : list (string * tftypes.Value))
         (typ : option GoType) (tmp : list (string * GoValue))
  : result (option GoType * list (string * GoValue)) :=
  match msv with
  | [] => Ok (typ, tmp)
  | (k, v) :: rest =>
      x <- decoded v ;;
      let typ' := match typ with
                  | None => reflect.TypeOf x
                  | Some _ => typ
                  end in
      range_msv_typ rest typ' (assign k x tmp)
  end.
End loops.

(** [for _, v := range tmp { res = reflect.Append(res, reflect.ValueOf(v)) }] *)
Fixpoint range_Append (elem : GoType) (tmp res : list GoValue)
  : result (list GoValue) :=
  match tmp with
  | [] => Ok res
  | v :: rest =>
      res' <- reflect.Append elem res v ;;
      range_Append elem rest res'
  end.

(** [for k, v := range tmp { res.SetMapIndex(reflect.ValueOf(k), reflect.ValueOf(v)) }] *)
Fixpoint range_SetMapIndex (elem : GoType) (tmp res : list (string * GoValue))
  : result (list (string * GoValue)) :=
  match tmp with
  | [] => Ok res
  | (k, v) :: rest =>
      res' <- reflect.SetMapIndex elem res k v ;;
      range_SetMapIndex elem rest res'
  end.

(** A [map[string]T] as an [interface{}]. *)
Definition string_map (elem : GoType) (m : list (string * GoValue)) : GoValue :=
  Vmap Tstring elem (map (fun kv => (Vstring (fst kv), snd kv)) m).

Fixpoint FromTerraform5Value (dt : GoPrimitive) (value : tftypes.Value)
         {struct value} : GoPrimitive * completion :=
  match value with
  | tftypes.mkValue typ p =>
    match p with
    | tftypes.unknown =>
        (dt, returns (errors_New "cannot decode unknown values to Go types"))
    | tftypes.null =>
        ({| Type_ := None; Value := Vnil |}, returns_nil)
    | _ =>
      let dt := {| Type_ := Some typ; Value := Value dt |} in
      if tftypes.Is_String typ then
        finish dt (str <- tftypes.As_string p ;; Ok (Vstring str))
      else if tftypes.Is_Number typ then
        finish dt (num <- tftypes.As_big_Float p ;; Ok (VbigFloat num))
      else if tftypes.Is_Bool typ then
        finish dt (b <- tftypes.As_bool p ;; Ok (Vbool b))
      else if tftypes.Is_Object typ then
        finish dt
          match p with
          | tftypes.attributes msv =>
              res <- range_msv (FromTerraform5Value zero) msv [] ;;
              Ok (string_map Tinterface res)
          | _ => Err (As_error "*map[string]tftypes.Value")
          end
      else if tftypes.Is_Tuple typ then
        finish dt
          match p with
          | tftypes.values vals =>
              res <- range_vals (FromTerraform5Value zero) vals [] ;;
              Ok (Vslice Tinterface res)
          | _ => Err (As_error "*[]tftypes.Value")
          end
      else if tftypes.Is_List typ
              || tftypes.Is_Set typ then
        finish dt
          match p with
          | tftypes.values vals =>
              if Nat.ltb (length vals) 1 then Ok (VnilSlice Tinterface)
              else
                tmp <- range_vals (FromTerraform5Value zero) vals [] ;;
                (* tmp[0]: tmp is as long as vals *)
                let typ := reflect.TypeOf (hd Vnil tmp) in
                sliceTyp <- reflect.SliceOf typ ;;
                elem <- reflect.MakeSlice sliceTyp ;;
                res <- range_Append elem tmp [] ;;
                Ok (Vslice elem res)
          | _ => Err (As_error "*[]tftypes.Value")
          end
      else if tftypes.Is_Map typ then
        finish dt
          match p with
          | tftypes.attributes msv =>
              if Nat.ltb (length msv) 1 then Ok (string_map Tinterface [])
              else
                r <- range_msv_typ (FromTerraform5Value zero) msv None [] ;;
                let (typ, tmp) := r in
                mapTyp <- reflect.MapOf Tstring typ ;;
                elem <- reflect.MakeMapWithSize mapTyp ;;
                res <- range_SetMapIndex elem tmp [] ;;
                Ok (string_map elem res)
          | _ => Err (As_error "*map[string]tftypes.Value")
          end
      else (dt, returns (errors_New "unknown type"))
    end
  end.

(** *** The encoder *)

Definition cannot_marshal_kind (k : reflect.Kind) : error :=
  fmt_Errorf "cannot marshal kind of %s" [Astring (reflect.Kind_String k)].

(** [e.Interface().(string)] *)
Definition assert_string (e : GoValue) : result string :=
  match e with
  | Vstring s => Ok s
  | _ => Panic type_assertion
  end.

Section marshalers.
(** The recursive call [marshal(x, t)] on a type that is not nil. *)
Variable marshal : GoValue -> tftypes.Type_ -> result tftypes.Value.

Section Object.
Variable AttributeTypes : list (string * tftypes.Type_).

(** [marshal(x, p.AttributeTypes[k])].  Indexing the Go map with a
    name it does not have gives the nil Type, and [marshal] then
    panics at its first [p.Is]. *)
Fixpoint marshal_attribute (x : GoValue) (k : string)
         (ats : list (string * tftypes.Type_)) : result tftypes.Value :=
  match ats with
  | [] => Panic nil_dereference
  | (k', t) :: rest =>
      if String.eqb k k' then marshal x t else marshal_attribute x k rest
  end.

(** [for _, e := range val.MapKeys() { switch e.Kind() ... }] on a
    map of key type [key] and element type [elem]. *)
Fixpoint range_MapKeys_Object (key elem : GoType)
         (kvs : list (GoValue * GoValue))
         (vals : list (string * tftypes.Value))
  : result (list (string * tftypes.Value)) :=
  match kvs with
  | [] => Ok vals
  | (e, x) :: rest =>
      match reflect.Type_Kind key with
      | reflect.String =>
          k <- assert_string e ;;
          match marshal_attribute x k AttributeTypes with
          | Ok v => range_MapKeys_Object key elem rest (assign k v vals)
          | Err _ => Err (cannot_marshal_kind (reflect.Type_Kind elem))
          | Panic p => Panic p
          end
      | kind => Err (cannot_marshal_kind kind)
      end
  end.

(** [switch val.Kind()]: the values of kind Map are the [Vmap]s. *)
Definition marshalObject (i : GoValue) : result tftypes.Value :=
  match i with
  | Vmap key elem kvs =>
      vals <- range_MapKeys_Object key elem kvs [] ;;
      tftypes.NewValue (tftypes.Object AttributeTypes)
                       (tftypes.attributes vals)
  | _ => Err (cannot_marshal_kind (reflect.Kind_of i))
  end.
End Object.

Section Tuple.
Variable v : GoValue.

(** [for i, elementType := range p.ElementTypes { v.Index(i) ... }] *)
Fixpoint range_ElementTypes (ets : list tftypes.Type_) (i : nat)
         (vals : list tftypes.Value) : result (list tftypes.Value) :=
  match ets with
  | [] => Ok vals
  | elementType :: rest =>
      x <- reflect.Index v i ;;
      o <- marshal x elementType ;;
      range_ElementTypes rest (S i) (vals ++ [o])
  end.
End Tuple.

Definition marshalTuple (i : GoValue) (ElementTypes : list tftypes.Type_)
  : result tftypes.Value :=
  match reflect.Kind_of i with
  | reflect.Slice =>
      vals <- range_ElementTypes i ElementTypes 0 [] ;;
      tftypes.NewValue (tftypes.Tuple ElementTypes) (tftypes.values vals)
  | kind => Err (cannot_marshal_kind kind)
  end.

Section homogeneous.
(** [p.AttributeType] of a Map, [p.ElementType] of a List or Set. *)
Variable ElementType : tftypes.Type_.

Fixpoint range_MapKeys_Map (key elem : GoType)
         (kvs : list (GoValue * GoValue))
         (vals : list (string * tftypes.Value))
  : result (list (string * tftypes.Value)) :=
  match kvs with
  | [] => Ok vals
  | (e, x) :: rest =>
      match reflect.Type_Kind key with
      | reflect.String =>
          match marshal x ElementType with
          | Ok v =>
              k <- assert_string e ;;
              range_MapKeys_Map key elem rest (assign k v vals)
          | Err _ => Err (cannot_marshal_kind (reflect.Type_Kind elem))
          | Panic p => Panic p
          end
      | kind => Err (cannot_marshal_kind kind)
      end
  end.

Definition marshalMap (i : GoValue) : result tftypes.Value :=
  match i with
  | Vmap key elem kvs =>
      vals <- range_MapKeys_Map key elem kvs [] ;;
      tftypes.NewValue (tftypes.Map ElementType)
                       (tftypes.attributes vals)
  | _ => Err (cannot_marshal_kind (reflect.Kind_of i))
  end.

(** [for i := 0; i < v.Len(); i++ { v.Index(i) ... }] *)
Fixpoint range_Len (xs : list GoValue) (vals : list tftypes.Value)
  : result (list tftypes.Value) :=
  match xs with
  | [] => Ok vals
  | x :: rest =>
      o <- marshal x ElementType ;;
      range_Len rest (vals ++ [o])
  end.

Definition marshalList (i : GoValue) : result tftypes.Value :=
  match reflect.Kind_of i with
  | reflect.Slice =>
      vals <- range_Len (reflect.elements i) [] ;;
      tftypes.NewValue (tftypes.List ElementType) (tftypes.values vals)
  | kind => Err (cannot_marshal_kind kind)
  end.

Definition marshalSet (i : GoValue) : result tftypes.Value :=
  match reflect.Kind_of i with
  | reflect.Slice =>
      vals <- range_Len (reflect.elements i) [] ;;
      tftypes.NewValue (tftypes.Set_ ElementType) (tftypes.values vals)
  | kind => Err (cannot_marshal_kind kind)
  end.
End homogeneous.
End marshalers.

(** [marshal(i, p)] for a [p] that is not nil.  The cases of the source's
    [switch] exclude one another; they are listed in its order. *)
Fixpoint marshal (i : GoValue) (p : tftypes.Type_) {struct p}
  : result tftypes.Value :=
  match p with
  | tftypes.String => tftypes.NewValue tftypes.String (tftypes.of_interface i)
  | tftypes.Number => tftypes.NewValue tftypes.Number (tftypes.of_interface i)
  | tftypes.Bool => tftypes.NewValue tftypes.Bool (tftypes.of_interface i)
  | tftypes.Tuple ElementTypes => marshalTuple marshal i ElementTypes
  | tftypes.List ElementType => marshalList marshal ElementType i
  | tftypes.Set_ ElementType => marshalSet marshal ElementType i
  | tftypes.Map AttributeType => marshalMap marshal AttributeType i
  | tftypes.Object AttributeTypes => marshalObject marshal AttributeTypes i
  | tftypes.DynamicPseudoType =>
      Err (fmt_Errorf "unable to determine type %v" [Avalue i])
  end.

(** [marshal(i, p)] for any [p]: on the nil Type the first [p.Is] is a
    method call on a nil interface. *)
Definition marshal_interface (i : GoValue) (p : option tftypes.Type_)
  : result tftypes.Value :=
  match p with
  | None => Panic nil_dereference
  | Some p => marshal i p
  end.

Definition ToTerraform5Value (dt : GoPrimitive) : result tftypes.Value :=
  match Value dt with
  | Vnil => Err (errors_New "cannot decode unknown values to Go types")
  | i => marshal_interface i (Type_ dt)
  end.

End asgotypes.

(** ** Vocabulary of the statements *)

Import asgotypes.

Fixpoint mapM {A B} (f : A -> result B) (l : list A) : result (list B) :=
  match l with
  | [] => Ok []
  | a :: rest =>
      b <- f a ;;
      bs <- mapM f rest ;;
      Ok (b :: bs)
  end.

(** What decoding [v] into a fresh [GoPrimitive] leaves in its [Value]. *)
Definition decode (v : tftypes.Value) : result GoValue :=
  decoded (FromTerraform5Value zero) v.

Definition decode_all (vals : list tftypes.Value) : result (list GoValue) :=
  mapM decode vals.

(** Encoding positions [0 .. len(ets)-1] of [xs], each against the element
    type of its position, left to right. *)
Fixpoint encode_positions (xs : list GoValue) (ets : list tftypes.Type_)
         {struct ets} : result (list tftypes.Value) :=
  match ets with
  | [] => Ok []
  | t :: ets' =>
      match xs with
      | [] => Panic index_out_of_range
      | x :: xs' =>
          o <- marshal x t ;;
          os <- encode_positions xs' ets' ;;
          Ok (o :: os)
      end
  end.

(** The Go type of what a value of type [t] decodes to when nothing in it is
    null or empty. *)
Fixpoint GoType_of (t : tftypes.Type_) : GoType :=
  match t with
  | tftypes.String => Tstring
  | tftypes.Number => TptrBigFloat
  | tftypes.Bool => Tbool
  | tftypes.DynamicPseudoType => Tinterface
  | tftypes.Object _ => Tmap Tstring Tinterface
  | tftypes.Tuple _ => Tslice Tinterface
  | tftypes.List e => Tslice (GoType_of e)
  | tftypes.Set_ e => Tslice (GoType_of e)
  | tftypes.Map e => Tmap Tstring (GoType_of e)
  end.

Fixpoint distinct (l : list string) : bool :=
  match l with
  | [] => true
  | k :: rest => negb (existsb (String.eqb k) rest) && distinct rest
  end.

Definition has_type (t : tftypes.Type_) (v : tftypes.Value) : bool :=
  tftypes.Type_eqb (tftypes.typ v) t.

(** A null String, Number or Bool. *)
Definition null_primitive (v : tftypes.Value) : bool :=
  tftypes.IsNull v && tftypes.is_primitive (tftypes.typ v).

(** [v] is known, its payload has the shape its type asks for, a Number in
    it is in normal form and is left as it is by rounding to the precision
    the decoder reads numbers with, the values nested in it have the types
    its type gives them, no List, Set or Map in it is empty, and every
    nested value is known in the same way, except that an attribute of an
    Object or a position of a Tuple may be a null primitive. *)
Fixpoint fully_known (v : tftypes.Value) : bool :=
  match v with
  | tftypes.mkValue t p =>
      match t, p with
      | tftypes.String, tftypes.raw (Vstring _) => true
      | tftypes.Number, tftypes.raw (VbigFloat f) =>
          big_Float_eqb (big_Float_Set NewFloat_prec f) f
      | tftypes.Bool, tftypes.raw (Vbool _) => true
      | tftypes.Object ats, tftypes.attributes msv =>
          distinct (keys msv)
          && forallb (fun kv =>
                        match lookup (fst kv) ats with
                        | Some t' => has_type t' (snd kv)
                        | None => false
                        end
                        && (null_primitive (snd kv) || fully_known (snd kv)))
                     msv
      | tftypes.Tuple ets, tftypes.values vals =>
          Nat.eqb (length vals) (length ets)
          && forallb (fun tv => has_type (fst tv) (snd tv)) (combine ets vals)
          && forallb (fun v' => null_primitive v' || fully_known v') vals
      | tftypes.List et, tftypes.values vals
      | tftypes.Set_ et, tftypes.values vals =>
          Nat.ltb 0 (length vals)
          && forallb (fun v' => has_type et v' && fully_known v') vals
      | tftypes.Map et, tftypes.attributes msv =>
          Nat.ltb 0 (length msv)
          && distinct (keys msv)
          && forallb (fun kv => has_type et (snd kv) && fully_known (snd kv)) msv
      | _, _ => false
      end
  end.

(** [err.Error()] for the errors whose text can be computed here: a format
    with one verb, and an argument that is a string, a bool or nil. *)
Fixpoint Sprintf1 (format arg : string) : string :=
  match format with
  | EmptyString => EmptyString
  | String.String "%"%char (String.String _ rest) => arg ++ rest
  | String.String c rest => String.String c (Sprintf1 rest arg)
  end.

Definition Sprint (a : fmt_arg) : option string :=
  match a with
  | Astring s => Some s
  | Avalue (Vstring s) => Some s
  | Avalue (Vbool true) => Some "true"
  | Avalue (Vbool false) => Some "false"
  | Avalue Vnil => Some "<nil>"
  | Avalue _ => None
  end.

Definition Error (e : error) : option string :=
  match e with
  | errors_New text => Some text
  | fmt_Errorf format [a] => option_map (Sprintf1 format) (Sprint a)
  | _ => None
  end.

Fixpoint prefix_of (p s : string) : bool :=
  match p, s with
  | EmptyString, _ => true
  | String.String a p', String.String b s' => Ascii.eqb a b && prefix_of p' s'
  | _, _ => false
  end.

(** [strings.Contains(s, sub)] *)
Fixpoint Contains (s sub : string) : bool :=
  prefix_of sub s
  || match s with
     | EmptyString => false
     | String.String _ s' => Contains s' sub
     end.

(** The descriptor kinds [marshal] has a case for. *)
Definition supported (p : tftypes.Type_) : bool :=
  tftypes.Is_String p
  || tftypes.Is_Number p
  || tftypes.Is_Bool p
  || tftypes.Is_Tuple p
  || tftypes.Is_List p
  || tftypes.Is_Set p
  || tftypes.Is_Map p
  || tftypes.Is_Object p.

Definition cannot_decode_unknown : error :=
  errors_New "cannot decode unknown values to Go types".

(** [g] is not nil and its Go type is [T]. *)
Definition has_GoType (T : GoType) (g : GoValue) : bool :=
  match reflect.TypeOf g with
  | Some t => GoType_eqb t T
  | None => false
  end.

(** Encoding one entry of the input mapping against the descriptor of the
    attribute of its name. *)
Definition encode_attribute (ats : list (string * tftypes.Type_))
           (kx : string * GoValue) : result (string * tftypes.Value) :=
  match lookup (fst kx) ats with
  | Some t => v <- marshal (snd kx) t ;; Ok (fst kx, v)
  | None => Panic nil_dereference
  end.

(** An error that wraps another shows the other's text inside its own. *)
Definition wraps (outer inner : error) : bool :=
  match Error outer, Error inner with
  | Some o, Some i => Contains o i
  | _, _ => false
  end.

(** Two entries with the same key whose values are related by [R]. *)
Definition same_key {A B} (R : A -> B -> Prop) (ka : string * A)
           (kb : string * B) : Prop :=
  fst kb = fst ka /\ R (snd ka) (snd kb).

(** [m[k] = a] for every entry [(k, a)] of [entries], in their order. *)
Definition assign_all {A} (entries m : list (string * A)) : list (string * A) :=
  fold_left (fun acc ka => assign (fst ka) (snd ka) acc) entries m.

(** ** Vocabulary of the further properties *)

(** Decoding one entry of a [map[string]tftypes.Value], the key kept. *)
Definition decode_entry (kv : string * tftypes.Value)
  : result (string * GoValue) :=
  g <- decode (snd kv) ;; Ok (fst kv, g).

(** Encoding one entry of the input mapping against the one descriptor the
    values of a Map share. *)
Definition encode_entry (et : tftypes.Type_) (kx : string * GoValue)
  : result (string * tftypes.Value) :=
  v <- marshal (snd kx) et ;; Ok (fst kx, v).

Definition is_nil (g : GoValue) : bool :=
  match g with
  | Vnil => true
  | _ => false
  end.

(** An unknown value, at the top of [v] or anywhere below. *)
Fixpoint contains_unknown (v : tftypes.Value) : bool :=
  match v with
  | tftypes.mkValue _ p =>
      match p with
      | tftypes.unknown => true
      | tftypes.values vals => existsb contains_unknown vals
      | tftypes.attributes msv =>
          existsb (fun kv => contains_unknown (snd kv)) msv
      | _ => false
      end
  end.

(** The payload of [v] has the container its type asks for, as long as its
    type says, and the values in it carry the types its type gives them,
    all the way down.  The Go value behind a String, Number or Bool is not
    looked at. *)
Fixpoint shaped_by_type (v : tftypes.Value) : bool :=
  match v with
  | tftypes.mkValue t p =>
      match t, p with
      | tftypes.String, tftypes.null | tftypes.String, tftypes.raw _
      | tftypes.Number, tftypes.null | tftypes.Number, tftypes.raw _
      | tftypes.Bool, tftypes.null | tftypes.Bool, tftypes.raw _ => true
      | tftypes.Object ats, tftypes.attributes msv =>
          forallb (fun kv =>
                     match lookup (fst kv) ats with
                     | Some t' => has_type t' (snd kv)
                     | None => false
                     end
                     && shaped_by_type (snd kv))
                  msv
      | tftypes.Tuple ets, tftypes.values vals =>
          Nat.eqb (length vals) (length ets)
          && forallb (fun tv => has_type (fst tv) (snd tv)) (combine ets vals)
          && forallb shaped_by_type vals
      | tftypes.List et, tftypes.values vals
      | tftypes.Set_ et, tftypes.values vals =>
          forallb (fun v' => has_type et v' && shaped_by_type v') vals
      | tftypes.Map et, tftypes.attributes msv =>
          forallb (fun kv => has_type et (snd kv) && shaped_by_type (snd kv)) msv
      | _, _ => false
      end
  end.

(** The Go value has the representation [As] asks for under the primitive
    type [t]. *)
Definition representation_of (t : tftypes.Type_) (i : GoValue) : bool :=
  match t, i with
  | tftypes.String, Vstring _
  | tftypes.Number, VbigFloat _
  | tftypes.Bool, Vbool _ => true
  | _, _ => false
  end.

(** [g] is not nil and has the Go type of [g0], which is not nil either. *)
Definition same_GoType_as (g0 g : GoValue) : bool :=
  match reflect.TypeOf g0 with
  | Some T => has_GoType T g
  | None => false
  end.

(** The entries of a decoded mapping that are not nil. *)
Definition without_nil (mg : list (string * GoValue)) : list (string * GoValue) :=
  filter (fun kg => negb (is_nil (snd kg))) mg.

(** nil, or a Go value [NewValue] takes as it is. *)
Definition stored_by_NewValue (i : GoValue) : bool :=
  is_nil i || tftypes.NewValue_takes i.

(** What [As] hands back for a stored Go value: a number comes back
    rounded to the precision of the float the decoder reads it into. *)
Definition read_by_As (i : GoValue) : GoValue :=
  match i with
  | VbigFloat f => VbigFloat (big_Float_Set NewFloat_prec f)
  | _ => i
  end.

(** What [As] is asked to fill for a String, a Number and a Bool. *)
Definition As_target (t : tftypes.Type_) : string :=
  match t with
  | tftypes.Number => "**big.Float"
  | tftypes.Bool => "*bool"
  | _ => "*string"
  end.

(** [o] carries the type [t] and is shaped by it. *)
Definition encoded_as (t : tftypes.Type_) (o : tftypes.Value) : Prop :=
  tftypes.typ o = t /\ shaped_by_type o = true.

(** * Properties *)

(** ** Unknown and null values *)

(** C3: decoding a value that is not known fails with the error "cannot
    decode unknown values to Go types", whatever the value's type; the
    receiver is left as it was, so no dynamic value is produced. *)
Theorem decode_unknown_fails (dt : GoPrimitive) (value : tftypes.Value) :
  tftypes.IsKnown value = false ->
  FromTerraform5Value dt value = (dt, returns cannot_decode_unknown)
  /\ decode value = Err cannot_decode_unknown.
Proof.
  destruct value as [t p]; destruct p; cbn; try discriminate.
  intros _. split; reflexivity.
Qed.

Lemma decode_unknown_fails_witness :
  FromTerraform5Value zero
    (tftypes.mkValue (tftypes.List tftypes.Number) tftypes.unknown)
  = (zero, returns cannot_decode_unknown)
  /\ decode (tftypes.mkValue (tftypes.List tftypes.Number) tftypes.unknown)
     = Err cannot_decode_unknown.
Proof.
  apply (decode_unknown_fails zero
           (tftypes.mkValue (tftypes.List tftypes.Number) tftypes.unknown)).
  reflexivity.
Defined.

(** C2, as the code has it: [ToTerraform5Value] refuses a nil [Value] under
    every descriptor, with the decoder's "unknown values" error; inside
    [marshal] a nil met under a String, Number or Bool descriptor becomes
    the null value of that type; and decoding a null value leaves nil in
    [Value] and nil in [Type]. *)
Theorem nil_and_null (p : option tftypes.Type_) (t : tftypes.Type_)
        (dt : GoPrimitive) (value : tftypes.Value) :
  tftypes.is_primitive t = true ->
  tftypes.IsNull value = true ->
  ToTerraform5Value {| Type_ := p; Value := Vnil |} = Err cannot_decode_unknown
  /\ marshal Vnil t = Ok (tftypes.mkValue t tftypes.null)
  /\ FromTerraform5Value dt value
     = ({| Type_ := None; Value := Vnil |}, returns_nil).
Proof.
  intros Ht Hn. split; [reflexivity|]. split.
  - destruct t; try discriminate; reflexivity.
  - destruct value as [t' q]; destruct q; cbn in Hn; try discriminate.
    reflexivity.
Qed.

Lemma nil_and_null_witness :
  ToTerraform5Value {| Type_ := Some (tftypes.Map tftypes.Bool); Value := Vnil |}
  = Err cannot_decode_unknown
  /\ marshal Vnil tftypes.Number = Ok (tftypes.mkValue tftypes.Number tftypes.null)
  /\ FromTerraform5Value {| Type_ := Some tftypes.Bool; Value := Vbool true |}
       (tftypes.mkValue (tftypes.Tuple [tftypes.String]) tftypes.null)
     = ({| Type_ := None; Value := Vnil |}, returns_nil).
Proof.
  apply (nil_and_null (Some (tftypes.Map tftypes.Bool)) tftypes.Number
           {| Type_ := Some tftypes.Bool; Value := Vbool true |}
           (tftypes.mkValue (tftypes.Tuple [tftypes.String]) tftypes.null));
    reflexivity.
Defined.

(** C2 as stated fails: encoding nil against the String descriptor does not
    give the null String value, it gives an error. *)
Lemma encode_nil_is_refused :
  ToTerraform5Value {| Type_ := Some tftypes.String; Value := Vnil |}
  <> Ok (tftypes.mkValue tftypes.String tftypes.null).
Proof. discriminate. Qed.

(** ** Descriptors outside the closed set *)

(** C9, as the code has it: under a descriptor of none of the eight kinds
    [marshal] fails with "unable to determine type %v", whose one argument
    is the dynamic value it was given. *)
Theorem marshal_unsupported_type (i : GoValue) (p : tftypes.Type_) :
  supported p = false ->
  marshal i p = Err (fmt_Errorf "unable to determine type %v" [Avalue i]).
Proof.
  destruct p; cbn; try discriminate. reflexivity.
Qed.

Lemma marshal_unsupported_type_witness :
  marshal (Vbool true) tftypes.DynamicPseudoType
  = Err (fmt_Errorf "unable to determine type %v" [Avalue (Vbool true)]).
Proof.
  apply (marshal_unsupported_type (Vbool true) tftypes.DynamicPseudoType).
  reflexivity.
Defined.

(** C9 as stated fails: the error for a DynamicPseudoType descriptor reads
    "unable to determine type x" when the value is the string x; the kind
    is not in it. *)
Lemma unsupported_type_error_names_the_value :
  exists e text,
    marshal (Vstring "x") tftypes.DynamicPseudoType = Err e
    /\ Error e = Some text
    /\ text = "unable to determine type x"
    /\ Contains text "DynamicPseudoType" = false.
Proof.
  eexists. eexists. split; [reflexivity|]. split; [reflexivity|].
  split; reflexivity.
Qed.

(** ** Null elements in a List, Set or Map *)

(** C10 fails on the code: a List or Set whose only element is null, and a
    Map whose only value is null, make the decoder panic in [reflect]:
    [TypeOf] of the decoded nil is the nil Type, which [SliceOf] and
    [MapOf] do not accept.  A null behind a known element panics in
    [Append]. *)
Theorem decode_null_element_panics (dt : GoPrimitive) (et t : tftypes.Type_)
        (k : string) :
  let null := tftypes.mkValue t tftypes.null in
  snd (FromTerraform5Value dt (tftypes.mkValue (tftypes.List et) (tftypes.values [null])))
  = panics reflect_nil_Type
  /\ snd (FromTerraform5Value dt (tftypes.mkValue (tftypes.Set_ et) (tftypes.values [null])))
     = panics reflect_nil_Type
  /\ snd (FromTerraform5Value dt (tftypes.mkValue (tftypes.Map et) (tftypes.attributes [(k, null)])))
     = panics reflect_nil_Type
  /\ snd (FromTerraform5Value dt
            (tftypes.mkValue (tftypes.List tftypes.String)
               (tftypes.values
                  [tftypes.mkValue tftypes.String (tftypes.raw (Vstring "a"));
                   tftypes.mkValue tftypes.String tftypes.null])))
     = panics reflect_zero_Value.
Proof.
  cbv zeta. repeat split; reflexivity.
Qed.

(** ** Loops *)

Lemma big_Float_eqb_eq (x y : big_Float) : big_Float_eqb x y = true -> x = y.
Proof.
  destruct x as [m e], y as [m' e']. unfold big_Float_eqb. cbn.
  intros H. apply andb_prop in H as [Hm He].
  apply Z.eqb_eq in Hm, He. now subst.
Qed.

Lemma GoType_eqb_refl (t : GoType) : GoType_eqb t t = true.
Proof.
  induction t; cbn; auto. now rewrite IHt1, IHt2.
Qed.

Lemma GoType_eqb_eq (a b : GoType) : GoType_eqb a b = true -> a = b.
Proof.
  revert b. induction a; destruct b; cbn; try discriminate; auto.
  - intros H. f_equal. auto.
  - intros H. apply andb_prop in H as [H1 H2]. f_equal; auto.
Qed.

Lemma has_GoType_TypeOf (T : GoType) (g : GoValue) :
  has_GoType T g = true <-> reflect.TypeOf g = Some T.
Proof.
  unfold has_GoType. destruct (reflect.TypeOf g) as [t|]; split; intros H;
    try discriminate.
  - f_equal. now apply GoType_eqb_eq.
  - injection H as ->. apply GoType_eqb_refl.
Qed.

Lemma existsb_eqb_In (k : string) (l : list string) :
  existsb (String.eqb k) l = true <-> In k l.
Proof.
  rewrite existsb_exists. split.
  - intros [x [Hin Heq]]. apply String.eqb_eq in Heq. now subst.
  - intros Hin. exists k. split; auto. apply String.eqb_refl.
Qed.

Lemma assign_fresh {A} (k : string) (a : A) (m : list (string * A)) :
  existsb (String.eqb k) (keys m) = false -> assign k a m = m ++ [(k, a)].
Proof.
  induction m as [|[k' a'] m IH]; cbn; intros H; auto.
  apply orb_false_elim in H as [H1 H2]. rewrite H1. now rewrite IH.
Qed.

Lemma existsb_app_false (k : string) (l1 l2 : list string) :
  existsb (String.eqb k) (l1 ++ l2) = false ->
  existsb (String.eqb k) l1 = false /\ existsb (String.eqb k) l2 = false.
Proof. rewrite existsb_app. apply orb_false_elim. Qed.

Lemma distinct_app_cons (l1 : list string) (k : string) (l2 : list string) :
  distinct (l1 ++ k :: l2) = true ->
  existsb (String.eqb k) l1 = false /\ distinct ((l1 ++ [k]) ++ l2) = true.
Proof.
  induction l1 as [|a l1 IH]; cbn.
  - intros H. split; auto.
  - intros H. apply andb_prop in H as [H1 H2].
    destruct (IH H2) as [H3 H4]. split.
    + apply orb_false_intro; auto.
      destruct (String.eqb k a) eqn:E; auto.
      apply String.eqb_eq in E. subst a.
      rewrite existsb_app in H1. cbn in H1. rewrite String.eqb_refl in H1.
      rewrite orb_true_r in H1. discriminate.
    + rewrite H4, andb_true_r. rewrite <- app_assoc. exact H1.
Qed.

Lemma range_vals_mapM (f : tftypes.Value -> GoPrimitive * completion)
      (vals : list tftypes.Value) (res : list GoValue) :
  range_vals f vals res = (gs <- mapM (decoded f) vals ;; Ok (res ++ gs)).
Proof.
  revert res. induction vals as [|v vals IH]; intros res; cbn.
  - now rewrite app_nil_r.
  - destruct (decoded f v) as [x| |]; cbn; auto.
    rewrite IH. destruct (mapM (decoded f) vals); cbn; auto.
    now rewrite <- app_assoc.
Qed.

Lemma range_Append_all (T : GoType) (tmp res : list GoValue) :
  forallb (has_GoType T) tmp = true ->
  range_Append T tmp res = Ok (res ++ tmp).
Proof.
  revert res. induction tmp as [|g tmp IH]; intros res H; cbn.
  - now rewrite app_nil_r.
  - cbn in H. apply andb_prop in H as [Hg Ht].
    unfold reflect.Append. unfold has_GoType in Hg.
    destruct (reflect.TypeOf g); try discriminate. rewrite Hg. cbn.
    rewrite IH by assumption. now rewrite <- app_assoc.
Qed.

Lemma skipn_cons_nth {A} (i : nat) (xs : list A) (x : A) (rest : list A) :
  skipn i xs = x :: rest -> nth_error xs i = Some x /\ skipn (S i) xs = rest.
Proof.
  revert xs. induction i as [|i IH]; intros [|y xs]; cbn; try discriminate.
  - intros H. injection H as -> ->. auto.
  - intros H. apply IH in H. exact H.
Qed.

Lemma skipn_nil_nth {A} (i : nat) (xs : list A) :
  skipn i xs = [] -> nth_error xs i = None.
Proof.
  revert xs. induction i as [|i IH]; intros [|y xs]; cbn; try discriminate; auto.
Qed.

Lemma range_ElementTypes_positions (elem : GoType) (xs : list GoValue)
      (ets : list tftypes.Type_) (i : nat) (vals : list tftypes.Value) :
  range_ElementTypes marshal (Vslice elem xs) ets i vals
  = (os <- encode_positions (skipn i xs) ets ;; Ok (vals ++ os)).
Proof.
  revert i vals. induction ets as [|t ets IH]; intros i vals; cbn.
  - now rewrite app_nil_r.
  - unfold reflect.Index. cbn [reflect.elements].
    destruct (skipn i xs) as [|x rest] eqn:E.
    + now rewrite (skipn_nil_nth _ _ E).
    + destruct (skipn_cons_nth _ _ _ _ E) as [-> Hrest]. cbn.
      destruct (marshal x t) as [o| |]; cbn; auto.
      rewrite IH, Hrest. destruct (encode_positions rest ets); cbn; auto.
      now rewrite <- app_assoc.
Qed.

Lemma marshal_attribute_lookup (x : GoValue) (k : string)
      (ats : list (string * tftypes.Type_)) :
  marshal_attribute marshal x k ats
  = match lookup k ats with
    | Some t => marshal x t
    | None => Panic nil_dereference
    end.
Proof.
  induction ats as [|[k' t] ats IH]; cbn; auto.
  destruct (String.eqb k k'); auto.
Qed.

(** ** Encoding against a Tuple *)

(** C7, as the code has it: a value that is not a slice is refused with
    "cannot marshal kind of" and its kind; for a slice at least as long as
    the descriptor's list of element types, position [i] is encoded against
    element type [i] for every [i] of that list, the first nested error is
    returned as it is, and the positions past the list are ignored. *)
Theorem marshalTuple_positions (i : GoValue) (elem : GoType)
        (xs : list GoValue) (ets : list tftypes.Type_) :
  reflect.Kind_of i <> reflect.Slice ->
  length ets <= length xs ->
  marshal i (tftypes.Tuple ets) = Err (cannot_marshal_kind (reflect.Kind_of i))
  /\ marshal (Vslice elem xs) (tftypes.Tuple ets)
     = (vals <- encode_positions xs ets ;;
        Ok (tftypes.mkValue (tftypes.Tuple ets) (tftypes.values vals))).
Proof.
  intros Hk _. split.
  - change (marshal i (tftypes.Tuple ets)) with (marshalTuple marshal i ets).
    unfold marshalTuple. destruct (reflect.Kind_of i); congruence.
  - change (marshal (Vslice elem xs) (tftypes.Tuple ets))
      with (marshalTuple marshal (Vslice elem xs) ets).
    unfold marshalTuple. cbn [reflect.Kind_of reflect.TypeOf reflect.Type_Kind].
    rewrite range_ElementTypes_positions. cbn [skipn].
    destruct (encode_positions xs ets); reflexivity.
Qed.

Lemma marshalTuple_positions_witness :
  marshal (Vmap Tstring Tinterface []) (tftypes.Tuple [tftypes.String; tftypes.Bool])
  = Err (cannot_marshal_kind reflect.Map)
  /\ marshal (Vslice Tinterface [Vstring "x"; Vbool true; Vint 3])
             (tftypes.Tuple [tftypes.String; tftypes.Bool])
     = Ok (tftypes.mkValue (tftypes.Tuple [tftypes.String; tftypes.Bool])
             (tftypes.values
                [tftypes.mkValue tftypes.String (tftypes.raw (Vstring "x"));
                 tftypes.mkValue tftypes.Bool (tftypes.raw (Vbool true))])).
Proof.
  apply (marshalTuple_positions (Vmap Tstring Tinterface []) Tinterface
           [Vstring "x"; Vbool true; Vint 3] [tftypes.String; tftypes.Bool]).
  - discriminate.
  - cbn. lia.
Defined.

(** C7 as stated fails: a slice of two elements is encoded against a Tuple
    descriptor of one element type without any error; the second element
    is dropped. *)
Lemma marshalTuple_longer_input_accepted :
  marshal (Vslice Tinterface [Vstring "x"; Vstring "y"])
          (tftypes.Tuple [tftypes.String])
  = Ok (tftypes.mkValue (tftypes.Tuple [tftypes.String])
          (tftypes.values
             [tftypes.mkValue tftypes.String (tftypes.raw (Vstring "x"))])).
Proof. reflexivity. Qed.

(** ** Encoding against an Object *)

Lemma assign_all_distinct {A} (vals acc : list (string * A)) :
  distinct (keys acc ++ keys vals) = true ->
  assign_all vals acc = acc ++ vals.
Proof.
  unfold assign_all.
  revert acc. induction vals as [|[k v] vals IH]; intros acc H; cbn.
  - now rewrite app_nil_r.
  - cbn in H. apply distinct_app_cons in H as [Hk Hd].
    rewrite (assign_fresh k v acc Hk). rewrite IH.
    + now rewrite <- app_assoc.
    + unfold keys in *. now rewrite map_app.
Qed.

Lemma mapM_encode_attribute_cons (ats : list (string * tftypes.Type_))
      (k : string) (x : GoValue) (m : list (string * GoValue))
      (vals : list (string * tftypes.Value)) :
  mapM (encode_attribute ats) ((k, x) :: m) = Ok vals ->
  exists t v vs,
    lookup k ats = Some t /\ marshal x t = Ok v
    /\ mapM (encode_attribute ats) m = Ok vs /\ vals = (k, v) :: vs.
Proof.
  cbn. unfold encode_attribute at 1. cbn [fst snd].
  destruct (lookup k ats) as [t|] eqn:Hl; [|discriminate].
  destruct (marshal x t) as [v| |] eqn:Hv; try discriminate. cbn.
  destruct (mapM (encode_attribute ats) m) as [vs| |] eqn:Hvs;
    try discriminate. cbn.
  intros H. injection H as <-. now exists t, v, vs.
Qed.

Lemma range_MapKeys_Object_encodes (ats : list (string * tftypes.Type_))
      (elem : GoType) (m : list (string * GoValue))
      (vals acc : list (string * tftypes.Value)) :
  mapM (encode_attribute ats) m = Ok vals ->
  range_MapKeys_Object marshal ats Tstring elem
    (map (fun kv => (Vstring (fst kv), snd kv)) m) acc
  = Ok (assign_all vals acc).
Proof.
  revert vals acc. induction m as [|[k x] m IH]; intros vals acc H.
  - cbn in H. injection H as <-. reflexivity.
  - apply mapM_encode_attribute_cons in H
      as (t & v & vs & Hl & Hm & Hvs & ->).
    cbn. rewrite marshal_attribute_lookup, Hl, Hm. now apply IH.
Qed.

Lemma range_MapKeys_Object_fails (ats : list (string * tftypes.Type_))
      (elem : GoType) (pre : list (string * GoValue)) (k : string)
      (x : GoValue) (post : list (string * GoValue))
      (vs acc : list (string * tftypes.Value)) (t : tftypes.Type_)
      (err : error) :
  mapM (encode_attribute ats) pre = Ok vs ->
  lookup k ats = Some t ->
  marshal x t = Err err ->
  range_MapKeys_Object marshal ats Tstring elem
    (map (fun kv => (Vstring (fst kv), snd kv)) (pre ++ (k, x) :: post)) acc
  = Err (cannot_marshal_kind (reflect.Type_Kind elem)).
Proof.
  intros Hpre Hl Hm. revert vs acc Hpre.
  induction pre as [|[k' x'] pre IH]; intros vs acc Hpre.
  - cbn. now rewrite marshal_attribute_lookup, Hl, Hm.
  - apply mapM_encode_attribute_cons in Hpre
      as (t' & v' & vs' & Hl' & Hm' & Hvs' & ->).
    cbn. rewrite marshal_attribute_lookup, Hl', Hm'. now apply (IH vs').
Qed.

Lemma mapM_encode_attribute_lookup (ats : list (string * tftypes.Type_))
      (m : list (string * GoValue)) (vals : list (string * tftypes.Value)) :
  mapM (encode_attribute ats) m = Ok vals ->
  forall k,
    match lookup k m with
    | Some x => exists t v,
        lookup k ats = Some t /\ marshal x t = Ok v /\ lookup k vals = Some v
    | None => lookup k vals = None
    end.
Proof.
  revert vals. induction m as [|[k' x] m IH]; intros vals H k.
  - cbn in H. injection H as <-. reflexivity.
  - apply mapM_encode_attribute_cons in H
      as (t & v & vs & Hl & Hm & Hvs & ->).
    cbn. destruct (String.eqb k k') eqn:E.
    + apply String.eqb_eq in E. subst k'. now exists t, v.
    + apply IH. exact Hvs.
Qed.

Lemma mapM_encode_attribute_keys (ats : list (string * tftypes.Type_))
      (m : list (string * GoValue)) (vals : list (string * tftypes.Value)) :
  mapM (encode_attribute ats) m = Ok vals -> keys vals = keys m.
Proof.
  revert vals. induction m as [|[k' x] m IH]; intros vals H.
  - cbn in H. injection H as <-. reflexivity.
  - apply mapM_encode_attribute_cons in H
      as (t & v & vs & Hl & Hm & Hvs & ->).
    cbn. f_equal. now apply IH.
Qed.

(** X21: when the input is a mapping with string keys, each of them an
    attribute name of the descriptor, and each entry encodes against the
    descriptor of its attribute, encoding against the Object descriptor
    succeeds; for every attribute name of the descriptor the result holds
    the encoding of the input's entry of that name against that attribute's
    descriptor, and holds nothing under a name the input does not have. *)
Theorem marshalObject_attributes (ats : list (string * tftypes.Type_))
        (elem : GoType) (m : list (string * GoValue))
        (vals : list (string * tftypes.Value)) :
  distinct (keys m) = true ->
  mapM (encode_attribute ats) m = Ok vals ->
  marshal (string_map elem m) (tftypes.Object ats)
  = Ok (tftypes.mkValue (tftypes.Object ats) (tftypes.attributes vals))
  /\ forall k t,
      lookup k ats = Some t ->
      match lookup k m with
      | Some x => exists v, marshal x t = Ok v /\ lookup k vals = Some v
      | None => lookup k vals = None
      end.
Proof.
  intros Hd Hm. split.
  - change (marshal (string_map elem m) (tftypes.Object ats))
      with (marshalObject marshal ats (string_map elem m)).
    unfold marshalObject, string_map.
    rewrite (range_MapKeys_Object_encodes ats elem m vals [] Hm).
    rewrite assign_all_distinct.
    + reflexivity.
    + cbn. now rewrite (mapM_encode_attribute_keys _ _ _ Hm).
  - intros k t Hl. pose proof (mapM_encode_attribute_lookup _ _ _ Hm k) as H.
    destruct (lookup k m) as [x|]; auto.
    destruct H as (t' & v & Hl' & Hv & Hk). rewrite Hl in Hl'.
    injection Hl' as <-. now exists v.
Qed.

Lemma marshalObject_attributes_witness :
  marshal (string_map Tinterface [("a", Vstring "x")])
          (tftypes.Object [("a", tftypes.String); ("b", tftypes.Number)])
  = Ok (tftypes.mkValue
          (tftypes.Object [("a", tftypes.String); ("b", tftypes.Number)])
          (tftypes.attributes
             [("a", tftypes.mkValue tftypes.String (tftypes.raw (Vstring "x")))]))
  /\ lookup "b"
       [("a", tftypes.mkValue tftypes.String (tftypes.raw (Vstring "x")))]
     = None.
Proof.
  destruct (marshalObject_attributes
              [("a", tftypes.String); ("b", tftypes.Number)] Tinterface
              [("a", Vstring "x")]
              [("a", tftypes.mkValue tftypes.String (tftypes.raw (Vstring "x")))]
              eq_refl eq_refl) as [H1 H2].
  split; [exact H1|]. exact (H2 "b" tftypes.Number eq_refl).
Defined.

(** C6 fails on the code: under the descriptor [Object{"a": String, "b":
    Number}] the input [{"a": "x", "c": true}] has an entry for the
    attribute "a", and no value is returned that holds its encoding: the
    name "c" is looked up in the descriptor without a test, the nil Type
    comes back, and [marshal] panics on it, whichever of the two entries
    is enumerated first, and through [ToTerraform5Value] as well. *)
Lemma marshalObject_extra_key_panics :
  let p := tftypes.Object [("a", tftypes.String); ("b", tftypes.Number)] in
  marshal (string_map Tinterface [("a", Vstring "x"); ("c", Vbool true)]) p
  = Panic nil_dereference
  /\ marshal (string_map Tinterface [("c", Vbool true); ("a", Vstring "x")]) p
     = Panic nil_dereference
  /\ ToTerraform5Value
       {| Type_ := Some p;
          Value := string_map Tinterface [("a", Vstring "x"); ("c", Vbool true)] |}
     = Panic nil_dereference.
Proof.
  cbv zeta. repeat split; reflexivity.
Qed.

(** C8, as the code has it: a value that is not a map is refused with
    "cannot marshal kind of" and its kind; a map that has an entry and
    whose keys are not strings is refused with the kind of its keys; and
    when the encoding of an entry returns an error, whatever that error is,
    the error returned is "cannot marshal kind of" with the kind of the
    map's element type.  Each of the three holds on its own, under every
    Object descriptor. *)
Theorem marshalObject_errors (ats : list (string * tftypes.Type_)) :
  (forall i : GoValue,
      reflect.Kind_of i <> reflect.Map ->
      marshal i (tftypes.Object ats)
      = Err (cannot_marshal_kind (reflect.Kind_of i)))
  /\ (forall (key elem : GoType) (e0 x0 : GoValue)
             (rest : list (GoValue * GoValue)),
         reflect.Type_Kind key <> reflect.String ->
         marshal (Vmap key elem ((e0, x0) :: rest)) (tftypes.Object ats)
         = Err (cannot_marshal_kind (reflect.Type_Kind key)))
  /\ (forall (elem : GoType) (pre : list (string * GoValue)) (k : string)
             (x : GoValue) (post : list (string * GoValue))
             (vs : list (string * tftypes.Value)) (t : tftypes.Type_)
             (err : error),
         mapM (encode_attribute ats) pre = Ok vs ->
         lookup k ats = Some t ->
         marshal x t = Err err ->
         marshal (string_map elem (pre ++ (k, x) :: post)) (tftypes.Object ats)
         = Err (cannot_marshal_kind (reflect.Type_Kind elem))).
Proof.
  repeat split.
  - intros i Hi.
    change (marshal i (tftypes.Object ats)) with (marshalObject marshal ats i).
    unfold marshalObject. destruct i; try reflexivity.
    exfalso. apply Hi. reflexivity.
  - intros key elem e0 x0 rest Hkey.
    change (marshal (Vmap key elem ((e0, x0) :: rest)) (tftypes.Object ats))
      with (marshalObject marshal ats (Vmap key elem ((e0, x0) :: rest))).
    unfold marshalObject. cbn.
    destruct (reflect.Type_Kind key); try reflexivity. congruence.
  - intros elem pre k x post vs t err Hpre Hl Hm.
    change (marshal (string_map elem (pre ++ (k, x) :: post)) (tftypes.Object ats))
      with (marshalObject marshal ats (string_map elem (pre ++ (k, x) :: post))).
    unfold marshalObject, string_map.
    now rewrite (range_MapKeys_Object_fails ats elem pre k x post vs [] t err).
Qed.

Lemma marshalObject_errors_witness :
  marshal (Vstring "x")
          (tftypes.Object [("a", tftypes.String); ("b", tftypes.Number)])
  = Err (cannot_marshal_kind reflect.String)
  /\ marshal (Vmap Tint Tinterface [(Vint 1, Vstring "x")])
             (tftypes.Object [("a", tftypes.String); ("b", tftypes.Number)])
     = Err (cannot_marshal_kind reflect.Int)
  /\ marshal (string_map Tinterface [("a", Vstring "x"); ("b", Vbool true)])
             (tftypes.Object [("a", tftypes.String);
                              ("b", tftypes.List tftypes.String)])
     = Err (cannot_marshal_kind reflect.Interface).
Proof.
  destruct (marshalObject_errors
              [("a", tftypes.String); ("b", tftypes.Number)]) as (H1 & H2 & _).
  destruct (marshalObject_errors
              [("a", tftypes.String); ("b", tftypes.List tftypes.String)])
    as (_ & _ & H3).
  split; [|split].
  - apply (H1 (Vstring "x")). discriminate.
  - apply (H2 Tint Tinterface (Vint 1) (Vstring "x") []). discriminate.
  - apply (H3 Tinterface [("a", Vstring "x")] "b" (Vbool true) []
              [("a", tftypes.mkValue tftypes.String (tftypes.raw (Vstring "x")))]
              (tftypes.List tftypes.String) (cannot_marshal_kind reflect.Bool));
      reflexivity.
Defined.

(** C8 as stated fails: the error for a failing attribute does not wrap the
    nested error.  Under [Object{"a": List(String)}] the inputs
    [{"a": "x"}] and [{"a": true}] fail inside with two different errors
    and both come back as "cannot marshal kind of interface", which holds
    the text of neither. *)
Lemma attribute_error_is_not_wrapped :
  let p := tftypes.Object [("a", tftypes.List tftypes.String)] in
  exists outer inner1 inner2,
    marshal (Vstring "x") (tftypes.List tftypes.String) = Err inner1
    /\ marshal (Vbool true) (tftypes.List tftypes.String) = Err inner2
    /\ inner1 <> inner2
    /\ marshal (string_map Tinterface [("a", Vstring "x")]) p = Err outer
    /\ marshal (string_map Tinterface [("a", Vbool true)]) p = Err outer
    /\ Error outer = Some "cannot marshal kind of interface"
    /\ Error inner1 = Some "cannot marshal kind of string"
    /\ wraps outer inner1 = false
    /\ wraps outer inner2 = false.
Proof.
  cbv zeta. do 3 eexists.
  repeat split; try reflexivity. discriminate.
Qed.

(** ** Induction on nested types and values *)

Lemma Type_eqb_eq : forall a b : tftypes.Type_,
  tftypes.Type_eqb a b = true -> a = b.
Proof.
  fix IH 1. intros a b.
  destruct a as [ | | | |x|x|x|x|x]; destruct b as [ | | | |y|y|y|y|y];
    cbn; try discriminate; try reflexivity.
  - intros H. f_equal. revert y H.
    induction x as [|[k t] x IHx]; intros [|[k' t'] y]; try discriminate; auto.
    intros H. apply andb_prop in H as [H H3]. apply andb_prop in H as [H1 H2].
    apply String.eqb_eq in H1. apply IH in H2. subst. f_equal. now apply IHx.
  - intros H. f_equal. revert y H.
    induction x as [|t x IHx]; intros [|t' y]; try discriminate; auto.
    intros H. apply andb_prop in H as [H1 H2].
    apply IH in H1. subst. f_equal. now apply IHx.
  - intros H. f_equal. now apply IH.
  - intros H. f_equal. now apply IH.
  - intros H. f_equal. now apply IH.
Qed.

Lemma Value_nested_ind (P : tftypes.Value -> Prop) :
  (forall t, P (tftypes.mkValue t tftypes.null)) ->
  (forall t, P (tftypes.mkValue t tftypes.unknown)) ->
  (forall t g, P (tftypes.mkValue t (tftypes.raw g))) ->
  (forall t vals, Forall P vals -> P (tftypes.mkValue t (tftypes.values vals))) ->
  (forall t msv, Forall (fun kv => P (snd kv)) msv ->
                 P (tftypes.mkValue t (tftypes.attributes msv))) ->
  forall v, P v.
Proof.
  intros Hnull Hunknown Hraw Hvalues Hattributes.
  fix IH 1. intros [t p]. destruct p as [ | |g|vals|msv].
  - apply Hnull.
  - apply Hunknown.
  - apply Hraw.
  - apply Hvalues.
    induction vals as [|v vals IHvals]; constructor; [apply IH | exact IHvals].
  - apply Hattributes.
    induction msv as [|[k v] msv IHmsv]; constructor; [apply IH | exact IHmsv].
Qed.

(** ** Loops over related lists *)

Lemma Forall_exists_Forall2 {A B} (R : A -> B -> Prop) (l : list A) :
  Forall (fun a => exists b, R a b) l -> exists l', Forall2 R l l'.
Proof.
  induction 1 as [|a l [b Hb] _ [l' Hl']].
  - exists []. constructor.
  - exists (b :: l'). now constructor.
Qed.

Lemma Forall2_keys {A B} (R : A -> B -> Prop) (m : list (string * A))
      (m' : list (string * B)) :
  Forall2 (same_key R) m m' -> keys m' = keys m.
Proof.
  unfold keys. induction 1 as [|ka kb m m' [Hk _] _ IH]; cbn; auto.
  now rewrite Hk, IH.
Qed.

Lemma decode_all_Forall2 (vals : list tftypes.Value) (gs : list GoValue) :
  Forall2 (fun v g => decode v = Ok g) vals gs -> decode_all vals = Ok gs.
Proof.
  unfold decode_all. induction 1 as [|v g vals gs Hv _ IH]; cbn; auto.
  now rewrite Hv, IH.
Qed.

Lemma range_Len_Forall2 (et : tftypes.Type_) (vals : list tftypes.Value)
      (gs : list GoValue) (acc : list tftypes.Value) :
  Forall2 (fun v g => marshal g et = Ok v) vals gs ->
  range_Len marshal et gs acc = Ok (acc ++ vals).
Proof.
  intros H. revert acc. induction H as [|v g vals gs Hv _ IH]; intros acc; cbn.
  - now rewrite app_nil_r.
  - rewrite Hv. cbn. rewrite IH. now rewrite <- app_assoc.
Qed.

Lemma encode_positions_Forall2 (vals : list tftypes.Value) (gs : list GoValue) :
  Forall2 (fun v g => marshal g (tftypes.typ v) = Ok v) vals gs ->
  encode_positions gs (map tftypes.typ vals) = Ok vals.
Proof.
  induction 1 as [|v g vals gs Hv _ IH]; cbn; auto. now rewrite Hv, IH.
Qed.

Lemma range_msv_Forall2 (f : tftypes.Value -> GoPrimitive * completion)
      (msv : list (string * tftypes.Value)) (mg acc : list (string * GoValue)) :
  Forall2 (same_key (fun v g => decoded f v = Ok g)) msv mg ->
  range_msv f msv acc = Ok (assign_all mg acc).
Proof.
  intros H. revert acc.
  induction H as [|[k v] [k' g] msv mg [Hk Hv] _ IH]; intros acc; cbn; auto.
  cbn in Hk, Hv. subst k'. rewrite Hv. cbn. apply IH.
Qed.

Lemma range_msv_typ_Forall2 (f : tftypes.Value -> GoPrimitive * completion)
      (T : GoType) (msv : list (string * tftypes.Value))
      (mg acc : list (string * GoValue)) (typ : option GoType) :
  Forall2 (same_key (fun v g => decoded f v = Ok g
                                /\ reflect.TypeOf g = Some T)) msv mg ->
  typ = None \/ typ = Some T ->
  range_msv_typ f msv typ acc
  = Ok (match msv with [] => typ | _ => Some T end, assign_all mg acc).
Proof.
  intros H. revert acc typ.
  induction H as [|[k v] [k' g] msv mg [Hk [Hv HT]] _ IH]; intros acc typ Htyp;
    cbn; auto.
  cbn in Hk, Hv, HT. subst k'. rewrite Hv. cbn. rewrite HT.
  rewrite (IH _ (match typ with None => Some T | Some _ => typ end)).
  - destruct msv; auto. destruct Htyp as [-> | ->]; reflexivity.
  - destruct Htyp as [-> | ->]; auto.
Qed.

Lemma range_SetMapIndex_all (T : GoType) (mg acc : list (string * GoValue)) :
  forallb (fun kg => has_GoType T (snd kg)) mg = true ->
  range_SetMapIndex T mg acc = Ok (assign_all mg acc).
Proof.
  revert acc. induction mg as [|[k g] mg IH]; intros acc H; cbn; auto.
  cbn in H. apply andb_prop in H as [Hg Hmg].
  unfold reflect.SetMapIndex. unfold has_GoType in Hg.
  destruct (reflect.TypeOf g); try discriminate. rewrite Hg. cbn.
  now apply IH.
Qed.

Lemma range_MapKeys_Map_Forall2 (et : tftypes.Type_) (elem : GoType)
      (msv : list (string * tftypes.Value))
      (mg : list (string * GoValue)) (acc : list (string * tftypes.Value)) :
  Forall2 (same_key (fun v g => marshal g et = Ok v)) msv mg ->
  range_MapKeys_Map marshal et Tstring elem
    (map (fun kv => (Vstring (fst kv), snd kv)) mg) acc
  = Ok (assign_all msv acc).
Proof.
  intros H. revert acc.
  induction H as [|[k v] [k' g] msv mg [Hk Hv] _ IH]; intros acc; cbn; auto.
  cbn in Hk, Hv. subst k'. rewrite Hv. cbn. apply IH.
Qed.

Lemma mapM_encode_attribute_Forall2 (ats : list (string * tftypes.Type_))
      (msv : list (string * tftypes.Value)) (mg : list (string * GoValue)) :
  Forall2 (fun kv kg => fst kg = fst kv
                        /\ lookup (fst kv) ats = Some (tftypes.typ (snd kv))
                        /\ marshal (snd kg) (tftypes.typ (snd kv)) = Ok (snd kv))
          msv mg ->
  mapM (encode_attribute ats) mg = Ok msv.
Proof.
  induction 1 as [|[k v] [k' g] msv mg [Hk [Hl Hv]] _ IH]; cbn; auto.
  cbn in Hk, Hl, Hv. subst k'. unfold encode_attribute at 1. cbn [fst snd].
  now rewrite Hl, Hv, IH.
Qed.

Lemma map_typ_combine (ets : list tftypes.Type_) (vals : list tftypes.Value) :
  Nat.eqb (length vals) (length ets) = true ->
  forallb (fun tv => has_type (fst tv) (snd tv)) (combine ets vals) = true ->
  map tftypes.typ vals = ets.
Proof.
  revert vals. induction ets as [|t ets IH]; intros [|v vals]; cbn;
    try discriminate; auto.
  intros Hlen H. apply andb_prop in H as [Hv H].
  apply Type_eqb_eq in Hv. rewrite Hv. f_equal. now apply IH.
Qed.

(** ** Decoding and encoding back *)

Ltac unfold_decoder :=
  cbn -[range_vals range_msv range_msv_typ range_Append range_SetMapIndex
        Nat.ltb assign_all].

Lemma decode_of_FromTerraform5Value (v : tftypes.Value) (dt' : GoPrimitive) :
  FromTerraform5Value zero v = (dt', returns_nil) -> decode v = Ok (Value dt').
Proof.
  unfold decode, decoded. now intros ->.
Qed.

Lemma null_primitive_round_trip (v : tftypes.Value) :
  null_primitive v = true ->
  decode v = Ok Vnil /\ marshal Vnil (tftypes.typ v) = Ok v.
Proof.
  destruct v as [t p]. unfold null_primitive. cbn.
  intros H. apply andb_prop in H as [Hn Hp].
  destruct p; try discriminate. split; [reflexivity|].
  destruct t; try discriminate; reflexivity.
Qed.

Lemma assign_all_nil {A} (vals : list (string * A)) :
  distinct (keys vals) = true -> assign_all vals [] = vals.
Proof. intros H. now rewrite assign_all_distinct. Qed.

Lemma ltb_length_false {A} (l : list A) :
  Nat.ltb 0 (length l) = true -> Nat.ltb (length l) 1 = false.
Proof. destruct l; [discriminate|reflexivity]. Qed.

(** What the decoder does with a List or a Set whose elements decode to
    values of one Go type. *)
Lemma decode_sequence (dt : GoPrimitive) (t : tftypes.Type_)
      (vals : list tftypes.Value) (gs : list GoValue) (T : GoType) :
  tftypes.Is_List t
  || tftypes.Is_Set t = true ->
  Nat.ltb (length vals) 1 = false ->
  decode_all vals = Ok gs ->
  forallb (has_GoType T) gs = true ->
  FromTerraform5Value dt (tftypes.mkValue t (tftypes.values vals))
  = ({| Type_ := Some t; Value := Vslice T gs |}, returns_nil).
Proof.
  intros Ht Hlen Hd HT.
  assert (H0 : reflect.TypeOf (hd Vnil gs) = Some T).
  { destruct gs as [|g0 gs].
    - destruct vals as [|v vals]; [discriminate|]. unfold decode_all in Hd.
      cbn in Hd. destruct (decode v); try discriminate.
      cbn in Hd. destruct (mapM decode vals); discriminate.
    - cbn in HT. apply andb_prop in HT as [HT _]. now apply has_GoType_TypeOf. }
  destruct t; try discriminate Ht;
    unfold_decoder;
    rewrite Hlen, range_vals_mapM;
    change (mapM (decoded (FromTerraform5Value zero)) vals) with (decode_all vals);
    rewrite Hd; unfold_decoder;
    rewrite H0; unfold_decoder;
    rewrite (range_Append_all T gs []) by exact HT; reflexivity.
Qed.

Lemma round_trip_known : forall v : tftypes.Value,
  fully_known v = true ->
  exists g,
    (forall dt, FromTerraform5Value dt v
                = ({| Type_ := Some (tftypes.typ v); Value := g |}, returns_nil))
    /\ has_GoType (GoType_of (tftypes.typ v)) g = true
    /\ marshal g (tftypes.typ v) = Ok v.
Proof.
  induction v as [t|t|t g|t vals IH|t msv IH] using Value_nested_ind;
    intros Hk.
  - destruct t; discriminate.
  - destruct t; discriminate.
  - destruct t; try discriminate; destruct g; try discriminate.
    + eexists; repeat split.
    + cbn in Hk. apply big_Float_eqb_eq in Hk.
      exists (VbigFloat f). split; [|split; reflexivity].
      intros dt. cbn -[big_Float_Set]. now rewrite Hk.
    + eexists; repeat split.
  - destruct t as [ | | | |ats|ets|et|et|et]; try discriminate;
      cbn [tftypes.typ GoType_of].
    + (* Tuple *)
      cbn in Hk. apply andb_prop in Hk as [Hk Hall].
      apply andb_prop in Hk as [Hlen Hty].
      pose proof (map_typ_combine _ _ Hlen Hty) as Hets.
      assert (Hgs : exists gs,
                 Forall2 (fun v g => decode v = Ok g
                                     /\ marshal g (tftypes.typ v) = Ok v) vals gs).
      { apply Forall_exists_Forall2. rewrite forallb_forall in Hall.
        rewrite Forall_forall in IH |- *. intros v Hin.
        specialize (Hall v Hin). apply orb_prop in Hall as [Hn | Hf].
        - exists Vnil. now apply null_primitive_round_trip.
        - destruct (IH v Hin Hf) as (g & Hd & _ & Hm). exists g. split; auto.
          now rewrite (decode_of_FromTerraform5Value v _ (Hd zero)). }
      destruct Hgs as [gs Hgs].
      exists (Vslice Tinterface gs). split; [|split; [reflexivity|]].
      * intros dt. unfold_decoder. rewrite range_vals_mapM.
        change (mapM (decoded (FromTerraform5Value zero)) vals)
          with (decode_all vals).
        rewrite (decode_all_Forall2 vals gs); [reflexivity|].
        eapply Forall2_impl; [|exact Hgs]. now intros v g [H _].
      * change (marshal (Vslice Tinterface gs) (tftypes.Tuple ets))
          with (marshalTuple marshal (Vslice Tinterface gs) ets).
        unfold marshalTuple. cbn [reflect.Kind_of reflect.TypeOf reflect.Type_Kind].
        rewrite range_ElementTypes_positions. cbn [skipn]. rewrite <- Hets.
        rewrite (encode_positions_Forall2 vals gs); [reflexivity|].
        eapply Forall2_impl; [|exact Hgs]. now intros v g [_ H].
    + (* List *)
      cbn in Hk. apply andb_prop in Hk as [Hlen Hall].
      assert (Hgs : exists gs,
                 Forall2 (fun v g => decode v = Ok g
                                     /\ has_GoType (GoType_of et) g = true
                                     /\ marshal g et = Ok v) vals gs).
      { apply Forall_exists_Forall2. rewrite forallb_forall in Hall.
        rewrite Forall_forall in IH |- *. intros v Hin.
        specialize (Hall v Hin). apply andb_prop in Hall as [Hty Hf].
        apply Type_eqb_eq in Hty.
        destruct (IH v Hin Hf) as (g & Hd & HT & Hm). exists g.
        rewrite Hty in HT, Hm. repeat split; auto.
        now rewrite (decode_of_FromTerraform5Value v _ (Hd zero)). }
      destruct Hgs as [gs Hgs].
      exists (Vslice (GoType_of et) gs). split; [|split].
      * intros dt. apply decode_sequence.
        -- reflexivity.
        -- now apply ltb_length_false.
        -- apply decode_all_Forall2.
           eapply Forall2_impl; [|exact Hgs]. now intros v g [H _].
        -- clear - Hgs. induction Hgs as [|v g vals gs (_ & HT & _) _ IHgs];
             cbn; auto. now rewrite HT.
      * cbn. apply GoType_eqb_refl.
      * change (marshal (Vslice (GoType_of et) gs) (tftypes.List et))
          with (marshalList marshal et (Vslice (GoType_of et) gs)).
        unfold marshalList.
        cbn [reflect.Kind_of reflect.TypeOf reflect.Type_Kind reflect.elements].
        rewrite (range_Len_Forall2 et vals gs []); [reflexivity|].
        eapply Forall2_impl; [|exact Hgs]. now intros v g (_ & _ & H).
    + (* Set *)
      cbn in Hk. apply andb_prop in Hk as [Hlen Hall].
      assert (Hgs : exists gs,
                 Forall2 (fun v g => decode v = Ok g
                                     /\ has_GoType (GoType_of et) g = true
                                     /\ marshal g et = Ok v) vals gs).
      { apply Forall_exists_Forall2. rewrite forallb_forall in Hall.
        rewrite Forall_forall in IH |- *. intros v Hin.
        specialize (Hall v Hin). apply andb_prop in Hall as [Hty Hf].
        apply Type_eqb_eq in Hty.
        destruct (IH v Hin Hf) as (g & Hd & HT & Hm). exists g.
        rewrite Hty in HT, Hm. repeat split; auto.
        now rewrite (decode_of_FromTerraform5Value v _ (Hd zero)). }
      destruct Hgs as [gs Hgs].
      exists (Vslice (GoType_of et) gs). split; [|split].
      * intros dt. apply decode_sequence.
        -- reflexivity.
        -- now apply ltb_length_false.
        -- apply decode_all_Forall2.
           eapply Forall2_impl; [|exact Hgs]. now intros v g [H _].
        -- clear - Hgs. induction Hgs as [|v g vals gs (_ & HT & _) _ IHgs];
             cbn; auto. now rewrite HT.
      * cbn. apply GoType_eqb_refl.
      * change (marshal (Vslice (GoType_of et) gs) (tftypes.Set_ et))
          with (marshalSet marshal et (Vslice (GoType_of et) gs)).
        unfold marshalSet.
        cbn [reflect.Kind_of reflect.TypeOf reflect.Type_Kind reflect.elements].
        rewrite (range_Len_Forall2 et vals gs []); [reflexivity|].
        eapply Forall2_impl; [|exact Hgs]. now intros v g (_ & _ & H).
  - destruct t as [ | | | |ats|ets|et|et|et]; try discriminate;
      cbn [tftypes.typ GoType_of].
    + (* Object *)
      cbn in Hk. apply andb_prop in Hk as [Hdist Hall].
      assert (Hmg : exists mg,
                 Forall2 (fun kv kg =>
                            fst kg = fst kv
                            /\ decode (snd kv) = Ok (snd kg)
                            /\ lookup (fst kv) ats = Some (tftypes.typ (snd kv))
                            /\ marshal (snd kg) (tftypes.typ (snd kv)) = Ok (snd kv))
                         msv mg).
      { apply Forall_exists_Forall2. rewrite forallb_forall in Hall.
        rewrite Forall_forall in IH |- *. intros [k v] Hin.
        specialize (Hall _ Hin). specialize (IH _ Hin). cbn [fst snd] in *.
        apply andb_prop in Hall as [Hty Hor].
        destruct (lookup k ats) as [t'|]; [|discriminate].
        apply Type_eqb_eq in Hty. subst t'.
        apply orb_prop in Hor as [Hn | Hf].
        - exists (k, Vnil). cbn [fst snd].
          destruct (null_primitive_round_trip v Hn). auto.
        - destruct (IH Hf) as (g & Hd & _ & Hm). exists (k, g). cbn [fst snd].
          repeat split; auto.
          now rewrite (decode_of_FromTerraform5Value v _ (Hd zero)). }
      destruct Hmg as [mg Hmg].
      assert (Hkeys : keys mg = keys msv).
      { apply (Forall2_keys (fun _ _ => True)).
        eapply Forall2_impl; [|exact Hmg]. intros kv kg [H _]. now split. }
      exists (string_map Tinterface mg). split; [|split; [reflexivity|]].
      * intros dt. unfold_decoder.
        rewrite (range_msv_Forall2 _ msv mg []).
        -- rewrite assign_all_nil; [reflexivity|]. now rewrite Hkeys.
        -- eapply Forall2_impl; [|exact Hmg]. intros kv kg (H1 & H2 & _).
           now split.
      * change (marshal (string_map Tinterface mg) (tftypes.Object ats))
          with (marshalObject marshal ats (string_map Tinterface mg)).
        unfold marshalObject, string_map.
        rewrite (range_MapKeys_Object_encodes ats Tinterface mg msv []).
        -- rewrite assign_all_nil; [reflexivity|]. exact Hdist.
        -- apply mapM_encode_attribute_Forall2.
           eapply Forall2_impl; [|exact Hmg]. intros kv kg (H1 & _ & H3 & H4).
           auto.
    + (* Map *)
      cbn in Hk. apply andb_prop in Hk as [Hk Hall].
      apply andb_prop in Hk as [Hlen Hdist].
      assert (Hmg : exists mg,
                 Forall2 (fun kv kg =>
                            fst kg = fst kv
                            /\ decode (snd kv) = Ok (snd kg)
                            /\ has_GoType (GoType_of et) (snd kg) = true
                            /\ marshal (snd kg) et = Ok (snd kv))
                         msv mg).
      { apply Forall_exists_Forall2. rewrite forallb_forall in Hall.
        rewrite Forall_forall in IH |- *. intros [k v] Hin.
        specialize (Hall _ Hin). specialize (IH _ Hin). cbn [fst snd] in *.
        apply andb_prop in Hall as [Hty Hf].
        apply Type_eqb_eq in Hty.
        destruct (IH Hf) as (g & Hd & HT & Hm). exists (k, g). cbn [fst snd].
        rewrite Hty in HT, Hm. repeat split; auto.
        now rewrite (decode_of_FromTerraform5Value v _ (Hd zero)). }
      destruct Hmg as [mg Hmg].
      assert (Hkeys : keys mg = keys msv).
      { apply (Forall2_keys (fun _ _ => True)).
        eapply Forall2_impl; [|exact Hmg]. intros kv kg [H _]. now split. }
      exists (string_map (GoType_of et) mg). split; [|split].
      * intros dt. unfold_decoder. rewrite (ltb_length_false _ Hlen).
        rewrite (range_msv_typ_Forall2 _ (GoType_of et) msv mg [] None).
        -- destruct msv as [|kv msv]; [discriminate|]. unfold_decoder.
           rewrite assign_all_nil by (now rewrite Hkeys).
           rewrite range_SetMapIndex_all.
           ++ rewrite assign_all_nil by (now rewrite Hkeys).
              reflexivity.
           ++ clear - Hmg.
              induction Hmg as [|kv' kg msv' mg (_ & _ & HT & _) _ IHmg];
                cbn; auto. now rewrite HT.
        -- eapply Forall2_impl; [|exact Hmg]. intros kv kg (H1 & H2 & H3 & _).
           split; auto. split; auto. now apply has_GoType_TypeOf.
        -- now left.
      * cbn. apply GoType_eqb_refl.
      * change (marshal (string_map (GoType_of et) mg) (tftypes.Map et))
          with (marshalMap marshal et (string_map (GoType_of et) mg)).
        unfold marshalMap, string_map.
        rewrite (range_MapKeys_Map_Forall2 et (GoType_of et) msv mg []).
        -- rewrite assign_all_nil; [reflexivity|]. exact Hdist.
        -- eapply Forall2_impl; [|exact Hmg]. intros kv kg (H1 & _ & _ & H4).
           now split.
Qed.

(** ** Decoding a List or a Set *)

(** X22: when every element of a List or Set decodes, to values that are
    not nil and all have the Go type [T] of the first one, the decoder
    returns the slice [[]T] of the decoded elements in their order, with
    the value's type in [Type]. *)
Theorem decode_List_Set (dt : GoPrimitive) (t : tftypes.Type_)
        (vals : list tftypes.Value) (g0 : GoValue) (gs : list GoValue)
        (T : GoType) :
  tftypes.Is_List t
  || tftypes.Is_Set t = true ->
  decode_all vals = Ok (g0 :: gs) ->
  forallb (has_GoType T) (g0 :: gs) = true ->
  FromTerraform5Value dt (tftypes.mkValue t (tftypes.values vals))
  = ({| Type_ := Some t; Value := Vslice T (g0 :: gs) |}, returns_nil)
  /\ reflect.TypeOf g0 = Some T.
Proof.
  intros Ht Hd HT. split.
  - apply decode_sequence; auto.
    destruct vals; [discriminate|reflexivity].
  - cbn in HT. apply andb_prop in HT as [HT _]. now apply has_GoType_TypeOf.
Qed.

Lemma decode_List_Set_witness :
  FromTerraform5Value zero
    (tftypes.mkValue (tftypes.Set_ tftypes.String)
       (tftypes.values
          [tftypes.mkValue tftypes.String (tftypes.raw (Vstring "b"));
           tftypes.mkValue tftypes.String (tftypes.raw (Vstring "a"))]))
  = ({| Type_ := Some (tftypes.Set_ tftypes.String);
        Value := Vslice Tstring [Vstring "b"; Vstring "a"] |}, returns_nil)
  /\ reflect.TypeOf (Vstring "b") = Some Tstring.
Proof.
  apply (decode_List_Set zero (tftypes.Set_ tftypes.String)
           [tftypes.mkValue tftypes.String (tftypes.raw (Vstring "b"));
            tftypes.mkValue tftypes.String (tftypes.raw (Vstring "a"))]
           (Vstring "b") [Vstring "a"] Tstring); reflexivity.
Defined.

(** C4 fails on the code: a known, non-empty List of Lists whose elements
    are all known and all decode, the second one being empty, is not
    decoded to any sequence; [Append] panics, a [[]interface{}] not being
    assignable to [[]string]. *)
Lemma decode_List_of_Lists_panics :
  let strings l := tftypes.mkValue (tftypes.List tftypes.String) (tftypes.values l) in
  let v := tftypes.mkValue (tftypes.List (tftypes.List tftypes.String))
             (tftypes.values
                [strings [tftypes.mkValue tftypes.String (tftypes.raw (Vstring "a"))];
                 strings []]) in
  tftypes.IsKnown v = true
  /\ decode_all [strings [tftypes.mkValue tftypes.String (tftypes.raw (Vstring "a"))];
                 strings []]
     = Ok [Vslice Tstring [Vstring "a"]; VnilSlice Tinterface]
  /\ snd (FromTerraform5Value zero v)
     = panics (reflect_not_assignable (Tslice Tinterface) (Tslice Tstring)).
Proof.
  cbv zeta. repeat split; reflexivity.
Qed.

(** ** Empty collections *)

(** C5: decoding a known List with no element succeeds and leaves in
    [Value] the nil slice of type [[]interface{}]: a sequence of length 0
    that is not the nil interface, so that [ToTerraform5Value] accepts it;
    decoding a known Map with no entry succeeds and leaves the empty
    [map[string]interface{}]. *)
Theorem decode_empty_List_Map (dt : GoPrimitive) (et : tftypes.Type_) :
  FromTerraform5Value dt (tftypes.mkValue (tftypes.List et) (tftypes.values []))
  = ({| Type_ := Some (tftypes.List et); Value := VnilSlice Tinterface |},
     returns_nil)
  /\ VnilSlice Tinterface <> Vnil
  /\ reflect.TypeOf (VnilSlice Tinterface) = Some (Tslice Tinterface)
  /\ reflect.elements (VnilSlice Tinterface) = []
  /\ ToTerraform5Value
       {| Type_ := Some (tftypes.List et); Value := VnilSlice Tinterface |}
     = Ok (tftypes.mkValue (tftypes.List et) (tftypes.values []))
  /\ FromTerraform5Value dt (tftypes.mkValue (tftypes.Map et) (tftypes.attributes []))
     = ({| Type_ := Some (tftypes.Map et); Value := Vmap Tstring Tinterface [] |},
        returns_nil).
Proof.
  repeat split; try reflexivity. discriminate.
Qed.

(** ** Round trip *)

(** C1, as the code has it: for a value that is known, whose payload and
    nested values have the types its type gives them, in which every
    Number is left as it is by rounding to 53 bits, no List, Set or Map is
    empty and every nested value is known in the same way (an attribute of
    an Object or a position of a Tuple may also be a null String, Number or
    Bool), decoding succeeds, keeps the value's type, and encoding what was
    decoded against that type gives the value back. *)
Theorem round_trip (dt : GoPrimitive) (v : tftypes.Value) :
  fully_known v = true ->
  exists g,
    FromTerraform5Value dt v
    = ({| Type_ := Some (tftypes.typ v); Value := g |}, returns_nil)
    /\ ToTerraform5Value {| Type_ := Some (tftypes.typ v); Value := g |} = Ok v.
Proof.
  intros Hk. destruct (round_trip_known v Hk) as (g & Hd & HT & Hm).
  exists g. split; [apply Hd|].
  unfold ToTerraform5Value. cbn [Value Type_ marshal_interface].
  destruct g; try exact Hm. discriminate HT.
Qed.

Lemma round_trip_witness :
  let str s := tftypes.mkValue tftypes.String (tftypes.raw (Vstring s)) in
  let v :=
    tftypes.mkValue
      (tftypes.Object [("name", tftypes.String); ("age", tftypes.Number);
                       ("nick", tftypes.String);
                       ("tags", tftypes.List tftypes.String)])
      (tftypes.attributes
         [("name", str "alice");
          ("age", tftypes.mkValue tftypes.Number
                    (tftypes.raw (VbigFloat {| mant := 15; exp := 1 |})));
          ("nick", tftypes.mkValue tftypes.String tftypes.null);
          ("tags", tftypes.mkValue (tftypes.List tftypes.String)
                     (tftypes.values [str "x"; str "y"]))]) in
  exists g,
    FromTerraform5Value zero v
    = ({| Type_ := Some (tftypes.typ v); Value := g |}, returns_nil)
    /\ ToTerraform5Value {| Type_ := Some (tftypes.typ v); Value := g |} = Ok v.
Proof.
  cbv zeta.
  apply (round_trip zero
           (tftypes.mkValue
              (tftypes.Object [("name", tftypes.String); ("age", tftypes.Number);
                               ("nick", tftypes.String);
                               ("tags", tftypes.List tftypes.String)])
              (tftypes.attributes
                 [("name", tftypes.mkValue tftypes.String (tftypes.raw (Vstring "alice")));
                  ("age", tftypes.mkValue tftypes.Number
                            (tftypes.raw (VbigFloat {| mant := 15; exp := 1 |})));
                  ("nick", tftypes.mkValue tftypes.String tftypes.null);
                  ("tags", tftypes.mkValue (tftypes.List tftypes.String)
                             (tftypes.values
                                [tftypes.mkValue tftypes.String (tftypes.raw (Vstring "x"));
                                 tftypes.mkValue tftypes.String (tftypes.raw (Vstring "y"))]))]))).
  reflexivity.
Defined.

(** C1 as stated fails.  A known Object whose one attribute is a null List
    of strings holds no empty collection; it decodes, to a mapping with nil
    under the attribute, and encoding that mapping against the Object's
    type fails.  A known Map of strings with one null value decodes and
    encodes, to a Map without that entry. *)
Lemma round_trip_fails_on_nested_null :
  let str s := tftypes.mkValue tftypes.String (tftypes.raw (Vstring s)) in
  let v := tftypes.mkValue
             (tftypes.Object [("a", tftypes.List tftypes.String)])
             (tftypes.attributes
                [("a", tftypes.mkValue (tftypes.List tftypes.String) tftypes.null)]) in
  let w := tftypes.mkValue (tftypes.Map tftypes.String)
             (tftypes.attributes
                [("a", str "x");
                 ("b", tftypes.mkValue tftypes.String tftypes.null)]) in
  tftypes.IsKnown v = true /\ tftypes.IsNull v = false
  /\ (exists g,
        FromTerraform5Value zero v
        = ({| Type_ := Some (tftypes.typ v); Value := g |}, returns_nil)
        /\ ToTerraform5Value {| Type_ := Some (tftypes.typ v); Value := g |}
           = Err (cannot_marshal_kind reflect.Interface))
  /\ (exists g,
        FromTerraform5Value zero w
        = ({| Type_ := Some (tftypes.typ w); Value := g |}, returns_nil)
        /\ ToTerraform5Value {| Type_ := Some (tftypes.typ w); Value := g |}
           = Ok (tftypes.mkValue (tftypes.Map tftypes.String)
                   (tftypes.attributes [("a", str "x")]))).
Proof.
  cbv zeta. split; [reflexivity|]. split; [reflexivity|].
  split; eexists; split; reflexivity.
Qed.

(** * Further properties *)

(** ** Encoding against a List, a Set or a Map *)

Lemma range_Len_mapM (et : tftypes.Type_) (xs : list GoValue)
      (acc : list tftypes.Value) :
  range_Len marshal et xs acc
  = (vs <- mapM (fun x => marshal x et) xs ;; Ok (acc ++ vs)).
Proof.
  revert acc. induction xs as [|x xs IH]; intros acc; cbn.
  - now rewrite app_nil_r.
  - destruct (marshal x et) as [o| |]; cbn; auto.
    rewrite IH. destruct (mapM (fun x0 => marshal x0 et) xs); cbn; auto.
    now rewrite <- app_assoc.
Qed.

(** X1: under a List or Set descriptor every element of a slice is encoded
    against the one element type, in the slice's order, whatever the
    element type of the slice itself; the first nested error or panic is
    returned as it is, and a nil or empty slice gives the List or Set with
    no element. *)
Theorem marshal_List_Set_elements (i : GoValue) (et : tftypes.Type_) :
  reflect.Kind_of i = reflect.Slice ->
  marshal i (tftypes.List et)
  = (vals <- mapM (fun x => marshal x et) (reflect.elements i) ;;
     Ok (tftypes.mkValue (tftypes.List et) (tftypes.values vals)))
  /\ marshal i (tftypes.Set_ et)
     = (vals <- mapM (fun x => marshal x et) (reflect.elements i) ;;
        Ok (tftypes.mkValue (tftypes.Set_ et) (tftypes.values vals))).
Proof.
  intros Hk. split.
  - change (marshal i (tftypes.List et)) with (marshalList marshal et i).
    unfold marshalList. rewrite Hk, range_Len_mapM.
    destruct (mapM (fun x => marshal x et) (reflect.elements i)); reflexivity.
  - change (marshal i (tftypes.Set_ et)) with (marshalSet marshal et i).
    unfold marshalSet. rewrite Hk, range_Len_mapM.
    destruct (mapM (fun x => marshal x et) (reflect.elements i)); reflexivity.
Qed.

Lemma marshal_List_Set_elements_witness :
  marshal (Vslice Tinterface [Vstring "a"; Vnil; Vstring "b"])
          (tftypes.List tftypes.String)
  = Ok (tftypes.mkValue (tftypes.List tftypes.String)
          (tftypes.values
             [tftypes.mkValue tftypes.String (tftypes.raw (Vstring "a"));
              tftypes.mkValue tftypes.String tftypes.null;
              tftypes.mkValue tftypes.String (tftypes.raw (Vstring "b"))]))
  /\ marshal (Vslice Tinterface [Vstring "a"; Vnil; Vstring "b"])
             (tftypes.Set_ tftypes.String)
     = Ok (tftypes.mkValue (tftypes.Set_ tftypes.String)
             (tftypes.values
                [tftypes.mkValue tftypes.String (tftypes.raw (Vstring "a"));
                 tftypes.mkValue tftypes.String tftypes.null;
                 tftypes.mkValue tftypes.String (tftypes.raw (Vstring "b"))])).
Proof.
  apply (marshal_List_Set_elements
           (Vslice Tinterface [Vstring "a"; Vnil; Vstring "b"]) tftypes.String).
  reflexivity.
Defined.

(** X2: under a List or Set descriptor a value that is not a slice, nil
    included, is refused with "cannot marshal kind of" and its kind. *)
Theorem marshal_List_Set_not_a_slice (i : GoValue) (et : tftypes.Type_) :
  reflect.Kind_of i <> reflect.Slice ->
  marshal i (tftypes.List et) = Err (cannot_marshal_kind (reflect.Kind_of i))
  /\ marshal i (tftypes.Set_ et) = Err (cannot_marshal_kind (reflect.Kind_of i)).
Proof.
  intros Hk. split.
  - change (marshal i (tftypes.List et)) with (marshalList marshal et i).
    unfold marshalList. destruct (reflect.Kind_of i); congruence.
  - change (marshal i (tftypes.Set_ et)) with (marshalSet marshal et i).
    unfold marshalSet. destruct (reflect.Kind_of i); congruence.
Qed.

Lemma marshal_List_Set_not_a_slice_witness :
  marshal Vnil (tftypes.List tftypes.Bool) = Err (cannot_marshal_kind reflect.Invalid)
  /\ marshal Vnil (tftypes.Set_ tftypes.Bool) = Err (cannot_marshal_kind reflect.Invalid).
Proof.
  apply (marshal_List_Set_not_a_slice Vnil tftypes.Bool). discriminate.
Defined.

Lemma mapM_encode_entry_cons (et : tftypes.Type_) (k : string) (x : GoValue)
      (m : list (string * GoValue)) (vals : list (string * tftypes.Value)) :
  mapM (encode_entry et) ((k, x) :: m) = Ok vals ->
  exists v vs,
    marshal x et = Ok v /\ mapM (encode_entry et) m = Ok vs
    /\ vals = (k, v) :: vs.
Proof.
  cbn. unfold encode_entry at 1. cbn [fst snd].
  destruct (marshal x et) as [v| |] eqn:Hv; try discriminate. cbn.
  destruct (mapM (encode_entry et) m) as [vs| |] eqn:Hvs; try discriminate.
  cbn. intros H. injection H as <-. now exists v, vs.
Qed.

Lemma range_MapKeys_Map_encodes (et : tftypes.Type_) (elem : GoType)
      (m : list (string * GoValue)) (vals acc : list (string * tftypes.Value)) :
  mapM (encode_entry et) m = Ok vals ->
  range_MapKeys_Map marshal et Tstring elem
    (map (fun kv => (Vstring (fst kv), snd kv)) m) acc
  = Ok (assign_all vals acc).
Proof.
  revert vals acc. induction m as [|[k x] m IH]; intros vals acc H.
  - cbn in H. injection H as <-. reflexivity.
  - apply mapM_encode_entry_cons in H as (v & vs & Hv & Hvs & ->).
    cbn. rewrite Hv. cbn. now apply IH.
Qed.

Lemma range_MapKeys_Map_fails (et : tftypes.Type_) (elem : GoType)
      (pre : list (string * GoValue)) (k : string) (x : GoValue)
      (post : list (string * GoValue))
      (vs acc : list (string * tftypes.Value)) (err : error) :
  mapM (encode_entry et) pre = Ok vs ->
  marshal x et = Err err ->
  range_MapKeys_Map marshal et Tstring elem
    (map (fun kv => (Vstring (fst kv), snd kv)) (pre ++ (k, x) :: post)) acc
  = Err (cannot_marshal_kind (reflect.Type_Kind elem)).
Proof.
  intros Hpre Hx. revert vs acc Hpre.
  induction pre as [|[k' x'] pre IH]; intros vs acc Hpre.
  - cbn. now rewrite Hx.
  - apply mapM_encode_entry_cons in Hpre as (v' & vs' & Hv' & Hvs' & ->).
    cbn. rewrite Hv'. cbn. now apply (IH vs').
Qed.

Lemma mapM_encode_entry_keys (et : tftypes.Type_)
      (m : list (string * GoValue)) (vals : list (string * tftypes.Value)) :
  mapM (encode_entry et) m = Ok vals -> keys vals = keys m.
Proof.
  revert vals. induction m as [|[k x] m IH]; intros vals H.
  - cbn in H. injection H as <-. reflexivity.
  - apply mapM_encode_entry_cons in H as (v & vs & Hv & Hvs & ->).
    cbn. f_equal. now apply IH.
Qed.

(** X3: under a Map descriptor, a mapping with string keys whose values
    all encode against the one element type is encoded to the Map of those
    encodings under the same keys. *)
Theorem marshalMap_entries (et : tftypes.Type_) (elem : GoType)
        (m : list (string * GoValue)) (vals : list (string * tftypes.Value)) :
  distinct (keys m) = true ->
  mapM (encode_entry et) m = Ok vals ->
  marshal (string_map elem m) (tftypes.Map et)
  = Ok (tftypes.mkValue (tftypes.Map et) (tftypes.attributes vals))
  /\ keys vals = keys m.
Proof.
  intros Hd Hm. pose proof (mapM_encode_entry_keys _ _ _ Hm) as Hk.
  split; [|exact Hk].
  change (marshal (string_map elem m) (tftypes.Map et))
    with (marshalMap marshal et (string_map elem m)).
  unfold marshalMap, string_map.
  rewrite (range_MapKeys_Map_encodes et elem m vals [] Hm).
  rewrite assign_all_nil; [reflexivity|]. now rewrite Hk.
Qed.

Lemma marshalMap_entries_witness :
  marshal (string_map Tstring [("b", Vstring "y"); ("a", Vstring "x")])
          (tftypes.Map tftypes.String)
  = Ok (tftypes.mkValue (tftypes.Map tftypes.String)
          (tftypes.attributes
             [("b", tftypes.mkValue tftypes.String (tftypes.raw (Vstring "y")));
              ("a", tftypes.mkValue tftypes.String (tftypes.raw (Vstring "x")))]))
  /\ keys [("b", tftypes.mkValue tftypes.String (tftypes.raw (Vstring "y")));
           ("a", tftypes.mkValue tftypes.String (tftypes.raw (Vstring "x")))]
     = keys [("b", Vstring "y"); ("a", Vstring "x")].
Proof.
  apply (marshalMap_entries tftypes.String Tstring
           [("b", Vstring "y"); ("a", Vstring "x")]
           [("b", tftypes.mkValue tftypes.String (tftypes.raw (Vstring "y")));
            ("a", tftypes.mkValue tftypes.String (tftypes.raw (Vstring "x")))]);
    reflexivity.
Defined.

(** X4: under a Map descriptor a value that is not a map is refused with
    "cannot marshal kind of" and its kind; a map that has an entry and
    whose keys are not strings is refused with the kind of its keys; and
    when a value fails to encode, the error returned is "cannot marshal
    kind of" with the kind of the map's element type, whatever the nested
    error was.  Each of the three holds on its own, under every Map
    descriptor. *)
Theorem marshalMap_errors (et : tftypes.Type_) :
  (forall i : GoValue,
      reflect.Kind_of i <> reflect.Map ->
      marshal i (tftypes.Map et) = Err (cannot_marshal_kind (reflect.Kind_of i)))
  /\ (forall (key elem : GoType) (e0 x0 : GoValue)
             (rest : list (GoValue * GoValue)),
         reflect.Type_Kind key <> reflect.String ->
         marshal (Vmap key elem ((e0, x0) :: rest)) (tftypes.Map et)
         = Err (cannot_marshal_kind (reflect.Type_Kind key)))
  /\ (forall (elem : GoType) (pre : list (string * GoValue)) (k : string)
             (x : GoValue) (post : list (string * GoValue))
             (vs : list (string * tftypes.Value)) (err : error),
         mapM (encode_entry et) pre = Ok vs ->
         marshal x et = Err err ->
         marshal (string_map elem (pre ++ (k, x) :: post)) (tftypes.Map et)
         = Err (cannot_marshal_kind (reflect.Type_Kind elem))).
Proof.
  repeat split.
  - intros i Hi.
    change (marshal i (tftypes.Map et)) with (marshalMap marshal et i).
    unfold marshalMap. destruct i; try reflexivity.
    exfalso. apply Hi. reflexivity.
  - intros key elem e0 x0 rest Hkey.
    change (marshal (Vmap key elem ((e0, x0) :: rest)) (tftypes.Map et))
      with (marshalMap marshal et (Vmap key elem ((e0, x0) :: rest))).
    unfold marshalMap. cbn.
    destruct (reflect.Type_Kind key); try reflexivity. congruence.
  - intros elem pre k x post vs err Hpre Hx.
    change (marshal (string_map elem (pre ++ (k, x) :: post)) (tftypes.Map et))
      with (marshalMap marshal et (string_map elem (pre ++ (k, x) :: post))).
    unfold marshalMap, string_map.
    now rewrite (range_MapKeys_Map_fails et elem pre k x post vs [] err).
Qed.

Lemma marshalMap_errors_witness :
  marshal (Vslice Tstring [Vstring "x"]) (tftypes.Map tftypes.String)
  = Err (cannot_marshal_kind reflect.Slice)
  /\ marshal (Vmap Tint Tstring [(Vint 1, Vstring "x")]) (tftypes.Map tftypes.String)
     = Err (cannot_marshal_kind reflect.Int)
  /\ marshal (string_map Tinterface
                [("a", Vslice Tstring [Vstring "x"]); ("b", Vnil)])
             (tftypes.Map (tftypes.List tftypes.String))
     = Err (cannot_marshal_kind reflect.Interface).
Proof.
  destruct (marshalMap_errors tftypes.String) as (H1 & H2 & _).
  destruct (marshalMap_errors (tftypes.List tftypes.String)) as (_ & _ & H3).
  split; [|split].
  - apply (H1 (Vslice Tstring [Vstring "x"])). discriminate.
  - apply (H2 Tint Tstring (Vint 1) (Vstring "x") []). discriminate.
  - apply (H3 Tinterface [("a", Vslice Tstring [Vstring "x"])] "b" Vnil []
              [("a", tftypes.mkValue (tftypes.List tftypes.String)
                       (tftypes.values
                          [tftypes.mkValue tftypes.String
                             (tftypes.raw (Vstring "x"))]))]
              (cannot_marshal_kind reflect.Invalid)); reflexivity.
Defined.

(** ** Panics of the encoder *)

Lemma range_MapKeys_Object_unknown_name (ats : list (string * tftypes.Type_))
      (elem : GoType) (pre : list (string * GoValue)) (k : string)
      (x : GoValue) (post : list (string * GoValue))
      (vs acc : list (string * tftypes.Value)) :
  mapM (encode_attribute ats) pre = Ok vs ->
  lookup k ats = None ->
  range_MapKeys_Object marshal ats Tstring elem
    (map (fun kv => (Vstring (fst kv), snd kv)) (pre ++ (k, x) :: post)) acc
  = Panic nil_dereference.
Proof.
  intros Hpre Hl. revert vs acc Hpre.
  induction pre as [|[k' x'] pre IH]; intros vs acc Hpre.
  - cbn. now rewrite marshal_attribute_lookup, Hl.
  - apply mapM_encode_attribute_cons in Hpre
      as (t' & v' & vs' & Hl' & Hm' & Hvs' & ->).
    cbn. rewrite marshal_attribute_lookup, Hl', Hm'. now apply (IH vs').
Qed.

(** X5: under an Object descriptor, an input entry whose name is not an
    attribute of the descriptor makes the encoder panic, once the entries
    before it are encoded: the descriptor looked up is the nil Type, and
    [marshal] calls [Is] on it. *)
Theorem marshalObject_unknown_attribute_panics
        (ats : list (string * tftypes.Type_)) (elem : GoType)
        (pre : list (string * GoValue)) (k : string) (x : GoValue)
        (post : list (string * GoValue)) (vs : list (string * tftypes.Value)) :
  mapM (encode_attribute ats) pre = Ok vs ->
  lookup k ats = None ->
  marshal (string_map elem (pre ++ (k, x) :: post)) (tftypes.Object ats)
  = Panic nil_dereference.
Proof.
  intros Hpre Hl.
  change (marshal (string_map elem (pre ++ (k, x) :: post)) (tftypes.Object ats))
    with (marshalObject marshal ats (string_map elem (pre ++ (k, x) :: post))).
  unfold marshalObject, string_map.
  now rewrite (range_MapKeys_Object_unknown_name ats elem pre k x post vs []).
Qed.

Lemma marshalObject_unknown_attribute_panics_witness :
  marshal (string_map Tinterface [("a", Vstring "x"); ("c", Vbool true)])
          (tftypes.Object [("a", tftypes.String); ("b", tftypes.Bool)])
  = Panic nil_dereference.
Proof.
  apply (marshalObject_unknown_attribute_panics
           [("a", tftypes.String); ("b", tftypes.Bool)] Tinterface
           [("a", Vstring "x")] "c" (Vbool true) []
           [("a", tftypes.mkValue tftypes.String (tftypes.raw (Vstring "x")))]);
    reflexivity.
Defined.

Lemma encode_positions_short (xs : list GoValue) :
  forall (ets : list tftypes.Type_) (vs : list tftypes.Value),
    length xs < length ets ->
    encode_positions xs (firstn (length xs) ets) = Ok vs ->
    encode_positions xs ets = Panic index_out_of_range.
Proof.
  induction xs as [|x xs IH]; intros [|t ets] vs Hlen H; cbn in *; try lia.
  - reflexivity.
  - destruct (marshal x t) as [o| |]; try discriminate. cbn in *.
    destruct (encode_positions xs (firstn (length xs) ets)) as [os| |] eqn:E;
      try discriminate.
    rewrite (IH ets os); [reflexivity|lia|exact E].
Qed.

(** X6: under a Tuple descriptor, a slice shorter than the descriptor's
    list of element types makes the encoder panic with an index out of
    range, once the positions the slice does have are encoded. *)
Theorem marshalTuple_shorter_input_panics (elem : GoType) (xs : list GoValue)
        (ets : list tftypes.Type_) (vs : list tftypes.Value) :
  length xs < length ets ->
  encode_positions xs (firstn (length xs) ets) = Ok vs ->
  marshal (Vslice elem xs) (tftypes.Tuple ets) = Panic index_out_of_range.
Proof.
  intros Hlen H.
  change (marshal (Vslice elem xs) (tftypes.Tuple ets))
    with (marshalTuple marshal (Vslice elem xs) ets).
  unfold marshalTuple. cbn [reflect.Kind_of reflect.TypeOf reflect.Type_Kind].
  rewrite range_ElementTypes_positions. cbn [skipn].
  now rewrite (encode_positions_short xs ets vs Hlen H).
Qed.

Lemma marshalTuple_shorter_input_panics_witness :
  marshal (Vslice Tinterface [Vstring "x"])
          (tftypes.Tuple [tftypes.String; tftypes.Bool])
  = Panic index_out_of_range.
Proof.
  apply (marshalTuple_shorter_input_panics Tinterface [Vstring "x"]
           [tftypes.String; tftypes.Bool]
           [tftypes.mkValue tftypes.String (tftypes.raw (Vstring "x"))]).
  - cbn. lia.
  - reflexivity.
Defined.

(** X7: a [GoPrimitive] whose [Value] is not nil and whose [Type] is nil
    makes [ToTerraform5Value] panic: [marshal] calls [Is] on the nil
    Type. *)
Theorem ToTerraform5Value_without_Type_panics (dt : GoPrimitive) :
  Value dt <> Vnil ->
  Type_ dt = None ->
  ToTerraform5Value dt = Panic nil_dereference.
Proof.
  destruct dt as [p g]. cbn. intros Hg ->.
  unfold ToTerraform5Value. cbn. destruct g; try reflexivity. congruence.
Qed.

Lemma ToTerraform5Value_without_Type_panics_witness :
  ToTerraform5Value {| Type_ := None; Value := Vstring "x" |}
  = Panic nil_dereference.
Proof.
  apply (ToTerraform5Value_without_Type_panics
           {| Type_ := None; Value := Vstring "x" |}).
  - discriminate.
  - reflexivity.
Defined.

(** ** Decoding an Object, a Tuple and the nested failures *)

Lemma mapM_app_fails {A B} (f : A -> result B) (pre : list A) (a : A)
      (post : list A) (bs : list B) (e : error) :
  mapM f pre = Ok bs -> f a = Err e -> mapM f (pre ++ a :: post) = Err e.
Proof.
  revert bs. induction pre as [|a' pre IH]; intros bs Hpre Ha; cbn.
  - now rewrite Ha.
  - cbn in Hpre. destruct (f a') as [b'| |]; try discriminate. cbn in *.
    destruct (mapM f pre) as [bs'| |]; try discriminate.
    now rewrite (IH bs').
Qed.

Lemma length_app_cons_ltb {A} (pre : list A) (a : A) (post : list A) :
  Nat.ltb (length (pre ++ a :: post)) 1 = false.
Proof. destruct pre; reflexivity. Qed.

Lemma mapM_decode_entry_cons (k : string) (v : tftypes.Value)
      (msv : list (string * tftypes.Value)) (mg : list (string * GoValue)) :
  mapM decode_entry ((k, v) :: msv) = Ok mg ->
  exists g mg', decode v = Ok g /\ mapM decode_entry msv = Ok mg'
                /\ mg = (k, g) :: mg'.
Proof.
  cbn. unfold decode_entry at 1. cbn [fst snd].
  destruct (decode v) as [g| |] eqn:Hg; try discriminate. cbn.
  destruct (mapM decode_entry msv) as [mg'| |] eqn:Hmg; try discriminate.
  cbn. intros H. injection H as <-. now exists g, mg'.
Qed.

Lemma mapM_decode_entry_keys (msv : list (string * tftypes.Value))
      (mg : list (string * GoValue)) :
  mapM decode_entry msv = Ok mg -> keys mg = keys msv.
Proof.
  revert mg. induction msv as [|[k v] msv IH]; intros mg H.
  - cbn in H. injection H as <-. reflexivity.
  - apply mapM_decode_entry_cons in H as (g & mg' & Hg & Hmg & ->).
    cbn. f_equal. now apply IH.
Qed.

Lemma range_msv_decodes (msv : list (string * tftypes.Value))
      (mg acc : list (string * GoValue)) :
  mapM decode_entry msv = Ok mg ->
  range_msv (FromTerraform5Value zero) msv acc = Ok (assign_all mg acc).
Proof.
  revert mg acc. induction msv as [|[k v] msv IH]; intros mg acc H.
  - cbn in H. injection H as <-. reflexivity.
  - apply mapM_decode_entry_cons in H as (g & mg' & Hg & Hmg & ->).
    cbn. change (decoded (FromTerraform5Value zero) v) with (decode v).
    rewrite Hg. cbn. now apply IH.
Qed.

Lemma range_msv_fails (pre : list (string * tftypes.Value)) (k : string)
      (v : tftypes.Value) (post : list (string * tftypes.Value))
      (mg acc : list (string * GoValue)) (e : error) :
  mapM decode_entry pre = Ok mg ->
  decode v = Err e ->
  range_msv (FromTerraform5Value zero) (pre ++ (k, v) :: post) acc = Err e.
Proof.
  intros Hpre Hv. revert mg acc Hpre.
  induction pre as [|[k' v'] pre IH]; intros mg acc Hpre; cbn.
  - change (decoded (FromTerraform5Value zero) v) with (decode v).
    now rewrite Hv.
  - apply mapM_decode_entry_cons in Hpre as (g & mg' & Hg & Hmg & ->).
    change (decoded (FromTerraform5Value zero) v') with (decode v').
    rewrite Hg. cbn. now apply (IH mg').
Qed.

Lemma range_msv_typ_fails (pre : list (string * tftypes.Value)) (k : string)
      (v : tftypes.Value) (post : list (string * tftypes.Value))
      (mg acc : list (string * GoValue)) (typ : option GoType) (e : error) :
  mapM decode_entry pre = Ok mg ->
  decode v = Err e ->
  range_msv_typ (FromTerraform5Value zero) (pre ++ (k, v) :: post) typ acc
  = Err e.
Proof.
  intros Hpre Hv. revert mg acc typ Hpre.
  induction pre as [|[k' v'] pre IH]; intros mg acc typ Hpre; cbn.
  - change (decoded (FromTerraform5Value zero) v) with (decode v).
    now rewrite Hv.
  - apply mapM_decode_entry_cons in Hpre as (g & mg' & Hg & Hmg & ->).
    change (decoded (FromTerraform5Value zero) v') with (decode v').
    rewrite Hg. cbn. now apply (IH mg').
Qed.

(** X8: the decoder fails fast on a Tuple, List or Set: when an element
    fails to decode and the elements before it decode, the call returns
    that element's error unchanged, before any reflection on the decoded
    elements; [Type] then holds the value's type and [Value] is what it
    was. *)
Theorem decode_elements_fail_fast (dt : GoPrimitive) (t : tftypes.Type_)
        (pre : list tftypes.Value) (v : tftypes.Value)
        (post : list tftypes.Value) (gs : list GoValue) (e : error) :
  tftypes.Is_Tuple t || tftypes.Is_List t || tftypes.Is_Set t = true ->
  decode_all pre = Ok gs ->
  decode v = Err e ->
  FromTerraform5Value dt (tftypes.mkValue t (tftypes.values (pre ++ v :: post)))
  = ({| Type_ := Some t; Value := Value dt |}, returns e).
Proof.
  intros Ht Hpre Hv.
  assert (H : decode_all (pre ++ v :: post) = Err e)
    by (apply (mapM_app_fails decode pre v post gs e); assumption).
  destruct t; try discriminate Ht; unfold_decoder;
    rewrite ?length_app_cons_ltb, range_vals_mapM;
    change (mapM (decoded (FromTerraform5Value zero)) (pre ++ v :: post))
      with (decode_all (pre ++ v :: post));
    rewrite H; reflexivity.
Qed.

Lemma decode_elements_fail_fast_witness :
  FromTerraform5Value {| Type_ := None; Value := Vbool true |}
    (tftypes.mkValue (tftypes.List tftypes.String)
       (tftypes.values
          ([tftypes.mkValue tftypes.String tftypes.null]
           ++ tftypes.mkValue tftypes.String tftypes.unknown
           :: [tftypes.mkValue tftypes.String (tftypes.raw (Vstring "a"))])))
  = ({| Type_ := Some (tftypes.List tftypes.String);
        Value := Value {| Type_ := None; Value := Vbool true |} |},
     returns cannot_decode_unknown).
Proof.
  apply (decode_elements_fail_fast {| Type_ := None; Value := Vbool true |}
           (tftypes.List tftypes.String)
           [tftypes.mkValue tftypes.String tftypes.null]
           (tftypes.mkValue tftypes.String tftypes.unknown)
           [tftypes.mkValue tftypes.String (tftypes.raw (Vstring "a"))]
           [Vnil] cannot_decode_unknown); reflexivity.
Defined.

(** X9: the decoder fails fast on an Object or Map in the same way: the
    error of the first entry, in the order of enumeration, that fails to
    decode is returned unchanged, and [Value] is what it was. *)
Theorem decode_attributes_fail_fast (dt : GoPrimitive) (t : tftypes.Type_)
        (pre : list (string * tftypes.Value)) (k : string)
        (v : tftypes.Value) (post : list (string * tftypes.Value))
        (mg : list (string * GoValue)) (e : error) :
  tftypes.Is_Object t || tftypes.Is_Map t = true ->
  mapM decode_entry pre = Ok mg ->
  decode v = Err e ->
  FromTerraform5Value dt
    (tftypes.mkValue t (tftypes.attributes (pre ++ (k, v) :: post)))
  = ({| Type_ := Some t; Value := Value dt |}, returns e).
Proof.
  intros Ht Hpre Hv.
  destruct t; try discriminate Ht; unfold_decoder.
  - now rewrite (range_msv_fails pre k v post mg [] e).
  - rewrite length_app_cons_ltb.
    now rewrite (range_msv_typ_fails pre k v post mg [] None e).
Qed.

Lemma decode_attributes_fail_fast_witness :
  FromTerraform5Value zero
    (tftypes.mkValue (tftypes.Map tftypes.Bool)
       (tftypes.attributes
          ([("a", tftypes.mkValue tftypes.Bool (tftypes.raw (Vbool true)))]
           ++ ("b", tftypes.mkValue tftypes.Bool tftypes.unknown) :: [])))
  = ({| Type_ := Some (tftypes.Map tftypes.Bool); Value := Value zero |},
     returns cannot_decode_unknown).
Proof.
  apply (decode_attributes_fail_fast zero (tftypes.Map tftypes.Bool)
           [("a", tftypes.mkValue tftypes.Bool (tftypes.raw (Vbool true)))]
           "b" (tftypes.mkValue tftypes.Bool tftypes.unknown) []
           [("a", Vbool true)] cannot_decode_unknown); reflexivity.
Defined.

(** X10: a Tuple whose elements all decode is decoded to the
    [[]interface{}] of the decoded elements in their order, and an Object
    whose attributes all decode to the [map[string]interface{}] of the
    decoded attributes under their names; a null element or attribute
    decodes to nil, and the element and attribute types of the descriptor
    are not consulted. *)
Theorem decode_Tuple_Object (dt : GoPrimitive)
        (ets : list tftypes.Type_) (vals : list tftypes.Value)
        (gs : list GoValue)
        (ats : list (string * tftypes.Type_))
        (msv : list (string * tftypes.Value)) (mg : list (string * GoValue)) :
  decode_all vals = Ok gs ->
  distinct (keys msv) = true ->
  mapM decode_entry msv = Ok mg ->
  FromTerraform5Value dt (tftypes.mkValue (tftypes.Tuple ets) (tftypes.values vals))
  = ({| Type_ := Some (tftypes.Tuple ets); Value := Vslice Tinterface gs |},
     returns_nil)
  /\ FromTerraform5Value dt
       (tftypes.mkValue (tftypes.Object ats) (tftypes.attributes msv))
     = ({| Type_ := Some (tftypes.Object ats);
           Value := string_map Tinterface mg |}, returns_nil)
  /\ keys mg = keys msv.
Proof.
  intros Hvals Hd Hmsv. pose proof (mapM_decode_entry_keys _ _ Hmsv) as Hk.
  repeat split; [| |exact Hk].
  - unfold_decoder. rewrite range_vals_mapM.
    change (mapM (decoded (FromTerraform5Value zero)) vals) with (decode_all vals).
    now rewrite Hvals.
  - unfold_decoder. rewrite (range_msv_decodes msv mg [] Hmsv).
    rewrite assign_all_nil; [reflexivity|]. now rewrite Hk.
Qed.

Lemma decode_Tuple_Object_witness :
  FromTerraform5Value zero
    (tftypes.mkValue (tftypes.Tuple [tftypes.String; tftypes.Bool])
       (tftypes.values
          [tftypes.mkValue tftypes.String (tftypes.raw (Vstring "a"));
           tftypes.mkValue tftypes.Bool tftypes.null]))
  = ({| Type_ := Some (tftypes.Tuple [tftypes.String; tftypes.Bool]);
        Value := Vslice Tinterface [Vstring "a"; Vnil] |}, returns_nil)
  /\ FromTerraform5Value zero
       (tftypes.mkValue (tftypes.Object [("n", tftypes.String)])
          (tftypes.attributes
             [("n", tftypes.mkValue tftypes.String (tftypes.raw (Vstring "a")))]))
     = ({| Type_ := Some (tftypes.Object [("n", tftypes.String)]);
           Value := string_map Tinterface [("n", Vstring "a")] |}, returns_nil)
  /\ keys [("n", Vstring "a")]
     = keys [("n", tftypes.mkValue tftypes.String (tftypes.raw (Vstring "a")))].
Proof.
  apply (decode_Tuple_Object zero
           [tftypes.String; tftypes.Bool]
           [tftypes.mkValue tftypes.String (tftypes.raw (Vstring "a"));
            tftypes.mkValue tftypes.Bool tftypes.null]
           [Vstring "a"; Vnil]
           [("n", tftypes.String)]
           [("n", tftypes.mkValue tftypes.String (tftypes.raw (Vstring "a")))]
           [("n", Vstring "a")]); reflexivity.
Defined.

(** X11: a value that is known and not null and whose type is none of the
    eight kinds the decoder has a case for is refused with "unknown type";
    [Type] then holds the value's type and [Value] is what it was. *)
Theorem decode_unsupported_type (dt : GoPrimitive) (v : tftypes.Value) :
  tftypes.IsKnown v = true ->
  tftypes.IsNull v = false ->
  supported (tftypes.typ v) = false ->
  FromTerraform5Value dt v
  = ({| Type_ := Some (tftypes.typ v); Value := Value dt |},
     returns (errors_New "unknown type")).
Proof.
  destruct v as [t p]. cbn. intros Hk Hn Hs.
  destruct t; try discriminate Hs.
  destruct p; try discriminate; reflexivity.
Qed.

Lemma decode_unsupported_type_witness :
  FromTerraform5Value zero
    (tftypes.mkValue tftypes.DynamicPseudoType (tftypes.raw (Vstring "x")))
  = ({| Type_ := Some tftypes.DynamicPseudoType; Value := Value zero |},
     returns (errors_New "unknown type")).
Proof.
  apply (decode_unsupported_type zero
           (tftypes.mkValue tftypes.DynamicPseudoType (tftypes.raw (Vstring "x"))));
    reflexivity.
Defined.

(** ** What a call of the decoder leaves behind *)

Lemma decoded_Ok_returns_nil (f : tftypes.Value -> GoPrimitive * completion)
      (v : tftypes.Value) (g : GoValue) :
  decoded f v = Ok g -> snd (f v) = returns_nil.
Proof.
  unfold decoded. destruct (f v) as [vgp c]. destruct c; now try discriminate.
Qed.

Lemma range_vals_Ok (f : tftypes.Value -> GoPrimitive * completion)
      (vals : list tftypes.Value) (acc res : list GoValue) :
  range_vals f vals acc = Ok res ->
  Forall (fun v => snd (f v) = returns_nil) vals.
Proof.
  revert acc. induction vals as [|v vals IH]; intros acc H; constructor.
  - cbn in H. destruct (decoded f v) eqn:E; try discriminate.
    now apply decoded_Ok_returns_nil in E.
  - cbn in H. destruct (decoded f v); try discriminate. cbn in H. eauto.
Qed.

Lemma range_msv_Ok (f : tftypes.Value -> GoPrimitive * completion)
      (msv : list (string * tftypes.Value)) (acc res : list (string * GoValue)) :
  range_msv f msv acc = Ok res ->
  Forall (fun kv => snd (f (snd kv)) = returns_nil) msv.
Proof.
  revert acc. induction msv as [|[k v] msv IH]; intros acc H; constructor.
  - cbn in H |- *. destruct (decoded f v) eqn:E; try discriminate.
    now apply decoded_Ok_returns_nil in E.
  - cbn in H. destruct (decoded f v); try discriminate. cbn in H. eauto.
Qed.

Lemma range_msv_typ_Ok (f : tftypes.Value -> GoPrimitive * completion)
      (msv : list (string * tftypes.Value)) (typ : option GoType)
      (acc : list (string * GoValue))
      (res : option GoType * list (string * GoValue)) :
  range_msv_typ f msv typ acc = Ok res ->
  Forall (fun kv => snd (f (snd kv)) = returns_nil) msv.
Proof.
  revert typ acc. induction msv as [|[k v] msv IH]; intros typ acc H; constructor.
  - cbn in H |- *. destruct (decoded f v) eqn:E; try discriminate.
    now apply decoded_Ok_returns_nil in E.
  - cbn in H. destruct (decoded f v); try discriminate. cbn in H. eauto.
Qed.

Lemma finish_not_Ok (dt : GoPrimitive) (r : result GoValue) :
  (forall g, r <> Ok g) -> snd (finish dt r) <> returns_nil.
Proof.
  destruct r as [g| |]; cbn; intros H; try discriminate.
  now destruct (H g).
Qed.

Lemma unknown_among_decoded (vals : list tftypes.Value) :
  Forall (fun v => contains_unknown v = true ->
                   forall dt, snd (FromTerraform5Value dt v) <> returns_nil) vals ->
  existsb contains_unknown vals = true ->
  Forall (fun v => snd (FromTerraform5Value zero v) = returns_nil) vals ->
  False.
Proof.
  induction 1 as [|v vals Hv _ IH]; cbn; intros Hex Hall; try discriminate.
  inversion Hall as [|? ? Hv' Hrest]; subst.
  apply orb_prop in Hex as [Hex | Hex]; auto.
  now apply (Hv Hex zero).
Qed.

Lemma unknown_among_decoded_entries (msv : list (string * tftypes.Value)) :
  Forall (fun kv => contains_unknown (snd kv) = true ->
                    forall dt, snd (FromTerraform5Value dt (snd kv)) <> returns_nil)
         msv ->
  existsb (fun kv => contains_unknown (snd kv)) msv = true ->
  Forall (fun kv => snd (FromTerraform5Value zero (snd kv)) = returns_nil) msv ->
  False.
Proof.
  induction 1 as [|kv msv Hv _ IH]; cbn; intros Hex Hall; try discriminate.
  inversion Hall as [|? ? Hv' Hrest]; subst.
  apply orb_prop in Hex as [Hex | Hex]; auto.
  now apply (Hv Hex zero).
Qed.

(** X12: the decoder never succeeds on a value that holds an unknown
    value, at the top or at any depth, whatever else the value holds: the
    call ends with an error or a panic. *)
Theorem decode_needs_fully_known : forall (v : tftypes.Value),
  contains_unknown v = true ->
  forall dt, snd (FromTerraform5Value dt v) <> returns_nil.
Proof.
  induction v as [t|t|t g|t vals IH|t msv IH] using Value_nested_ind;
    intros Hu dt; try discriminate Hu.
  - cbn. discriminate.
  - cbn in Hu.
    destruct t; unfold_decoder; try (apply finish_not_Ok; discriminate);
      try discriminate.
    + apply finish_not_Ok. intros g.
      destruct (range_vals (FromTerraform5Value zero) vals []) eqn:E;
        try discriminate.
      exfalso. apply range_vals_Ok in E.
      exact (unknown_among_decoded vals IH Hu E).
    + apply finish_not_Ok. intros g.
      destruct (Nat.ltb (length vals) 1) eqn:Hlen.
      * destruct vals; [discriminate Hu|discriminate Hlen].
      * destruct (range_vals (FromTerraform5Value zero) vals []) eqn:E;
          try discriminate.
        exfalso. apply range_vals_Ok in E.
        exact (unknown_among_decoded vals IH Hu E).
    + apply finish_not_Ok. intros g.
      destruct (Nat.ltb (length vals) 1) eqn:Hlen.
      * destruct vals; [discriminate Hu|discriminate Hlen].
      * destruct (range_vals (FromTerraform5Value zero) vals []) eqn:E;
          try discriminate.
        exfalso. apply range_vals_Ok in E.
        exact (unknown_among_decoded vals IH Hu E).
  - cbn in Hu.
    destruct t; unfold_decoder; try (apply finish_not_Ok; discriminate);
      try discriminate.
    + apply finish_not_Ok. intros g.
      destruct (range_msv (FromTerraform5Value zero) msv []) eqn:E;
        try discriminate.
      exfalso. apply range_msv_Ok in E.
      exact (unknown_among_decoded_entries msv IH Hu E).
    + apply finish_not_Ok. intros g.
      destruct (Nat.ltb (length msv) 1) eqn:Hlen.
      * destruct msv; [discriminate Hu|discriminate Hlen].
      * destruct (range_msv_typ (FromTerraform5Value zero) msv None []) eqn:E;
          try discriminate.
        exfalso. apply range_msv_typ_Ok in E.
        exact (unknown_among_decoded_entries msv IH Hu E).
Qed.

Lemma decode_needs_fully_known_witness :
  snd (FromTerraform5Value zero
         (tftypes.mkValue (tftypes.Tuple [tftypes.Object [("a", tftypes.Bool)]])
            (tftypes.values
               [tftypes.mkValue (tftypes.Object [("a", tftypes.Bool)])
                  (tftypes.attributes
                     [("a", tftypes.mkValue tftypes.Bool tftypes.unknown)])])))
  <> returns_nil.
Proof.
  apply (decode_needs_fully_known
           (tftypes.mkValue (tftypes.Tuple [tftypes.Object [("a", tftypes.Bool)]])
              (tftypes.values
                 [tftypes.mkValue (tftypes.Object [("a", tftypes.Bool)])
                    (tftypes.attributes
                       [("a", tftypes.mkValue tftypes.Bool tftypes.unknown)])]))).
  reflexivity.
Defined.

Lemma finish_returns (dt dt' : GoPrimitive) (r : result GoValue) (e : error) :
  finish dt r = (dt', returns e) -> dt' = dt.
Proof.
  destruct r; cbn; intros H; try discriminate. now injection H as <- _.
Qed.

(** X13: when the decoder returns an error, the receiver's [Value] is what
    it was before the call: nothing decoded so far is left in it.  Its
    [Type] is what it was if the value is unknown, and the value's type
    otherwise. *)
Theorem decode_error_keeps_Value (dt dt' : GoPrimitive) (v : tftypes.Value)
        (e : error) :
  FromTerraform5Value dt v = (dt', returns e) ->
  Value dt' = Value dt
  /\ Type_ dt' = if tftypes.IsKnown v then Some (tftypes.typ v) else Type_ dt.
Proof.
  destruct v as [t p]. destruct p as [ | |g|vals|msv].
  - discriminate.
  - cbn. intros H. now injection H as <- _.
  - destruct t; unfold_decoder; intros H;
      first [apply finish_returns in H; subst dt'; split; reflexivity
            |injection H as <- _; split; reflexivity].
  - destruct t; unfold_decoder; intros H;
      first [apply finish_returns in H; subst dt'; split; reflexivity
            |injection H as <- _; split; reflexivity].
  - destruct t; unfold_decoder; intros H;
      first [apply finish_returns in H; subst dt'; split; reflexivity
            |injection H as <- _; split; reflexivity].
Qed.

Lemma decode_error_keeps_Value_witness :
  Value {| Type_ := Some (tftypes.Tuple [tftypes.String; tftypes.String]);
           Value := Vint 7 |}
  = Value {| Type_ := None; Value := Vint 7 |}
  /\ Type_ {| Type_ := Some (tftypes.Tuple [tftypes.String; tftypes.String]);
              Value := Vint 7 |}
     = if tftypes.IsKnown
            (tftypes.mkValue (tftypes.Tuple [tftypes.String; tftypes.String])
               (tftypes.values
                  [tftypes.mkValue tftypes.String (tftypes.raw (Vstring "a"));
                   tftypes.mkValue tftypes.String tftypes.unknown]))
       then Some (tftypes.typ
                    (tftypes.mkValue (tftypes.Tuple [tftypes.String; tftypes.String])
                       (tftypes.values
                          [tftypes.mkValue tftypes.String (tftypes.raw (Vstring "a"));
                           tftypes.mkValue tftypes.String tftypes.unknown])))
       else Type_ {| Type_ := None; Value := Vint 7 |}.
Proof.
  apply (decode_error_keeps_Value
           {| Type_ := None; Value := Vint 7 |}
           {| Type_ := Some (tftypes.Tuple [tftypes.String; tftypes.String]);
              Value := Vint 7 |}
           (tftypes.mkValue (tftypes.Tuple [tftypes.String; tftypes.String])
              (tftypes.values
                 [tftypes.mkValue tftypes.String (tftypes.raw (Vstring "a"));
                  tftypes.mkValue tftypes.String tftypes.unknown]))
           cannot_decode_unknown).
  reflexivity.
Defined.

Lemma finish_returns_nil (dt dt' : GoPrimitive) (r : result GoValue) :
  finish dt r = (dt', returns_nil) ->
  exists g, r = Ok g /\ dt' = {| Type_ := Type_ dt; Value := g |}.
Proof.
  destruct r as [g| |]; cbn; intros H; try discriminate.
  injection H as <-. now exists g.
Qed.

Ltac not_nil_result H :=
  unfold bind, tftypes.As_string, tftypes.As_big_Float, tftypes.As_bool,
    reflect.SliceOf, reflect.MapOf, reflect.MakeSlice,
    reflect.MakeMapWithSize, string_map in H;
  repeat match type of H with
         | context [match ?x with _ => _ end] => destruct x; try discriminate H
         | context [if ?x then _ else _] => destruct x; try discriminate H
         end;
  injection H as <-; discriminate.

(** X14: when the decoder succeeds, the receiver tells a null value from
    every other one: for a null value [Type] and [Value] are both nil, and
    for any other value [Type] is the value's type and [Value] is not nil,
    so that [ToTerraform5Value] refuses exactly what was decoded from a
    null. *)
Theorem decode_success_receiver (dt dt' : GoPrimitive) (v : tftypes.Value) :
  FromTerraform5Value dt v = (dt', returns_nil) ->
  if tftypes.IsNull v
  then dt' = {| Type_ := None; Value := Vnil |}
  else Type_ dt' = Some (tftypes.typ v) /\ Value dt' <> Vnil.
Proof.
  destruct v as [t p]. destruct p as [ | |g|vals|msv].
  - cbn. intros H. now injection H as <-.
  - discriminate.
  - destruct t; unfold_decoder; intros H; try discriminate H;
      apply finish_returns_nil in H as (g' & Hr & ->); cbn [Type_ Value];
      (split; [reflexivity|]); not_nil_result Hr.
  - destruct t; unfold_decoder; intros H; try discriminate H;
      apply finish_returns_nil in H as (g' & Hr & ->); cbn [Type_ Value];
      (split; [reflexivity|]); not_nil_result Hr.
  - destruct t; unfold_decoder; intros H; try discriminate H;
      apply finish_returns_nil in H as (g' & Hr & ->); cbn [Type_ Value];
      (split; [reflexivity|]); not_nil_result Hr.
Qed.

Lemma decode_success_receiver_witness :
  if tftypes.IsNull (tftypes.mkValue (tftypes.List tftypes.String) (tftypes.values []))
  then {| Type_ := Some (tftypes.List tftypes.String); Value := VnilSlice Tinterface |}
       = {| Type_ := None; Value := Vnil |}
  else Type_ {| Type_ := Some (tftypes.List tftypes.String);
                Value := VnilSlice Tinterface |}
       = Some (tftypes.typ (tftypes.mkValue (tftypes.List tftypes.String)
                              (tftypes.values [])))
       /\ Value {| Type_ := Some (tftypes.List tftypes.String);
                   Value := VnilSlice Tinterface |} <> Vnil.
Proof.
  apply (decode_success_receiver zero
           {| Type_ := Some (tftypes.List tftypes.String);
              Value := VnilSlice Tinterface |}
           (tftypes.mkValue (tftypes.List tftypes.String) (tftypes.values []))).
  reflexivity.
Defined.

(** ** Null values in a Map, mixed elements in a List or Set *)

Lemma filter_fresh {A} (k : string) (m : list (string * A)) :
  existsb (String.eqb k) (keys m) = false ->
  filter (fun kv => negb (String.eqb k (fst kv))) m = m.
Proof.
  induction m as [|[k' a] m IH]; cbn; intros H; auto.
  apply orb_false_elim in H as [H1 H2]. rewrite H1. cbn. now rewrite IH.
Qed.

Lemma distinct_app_drop (l1 : list string) (k : string) (l2 : list string) :
  distinct (l1 ++ k :: l2) = true -> distinct (l1 ++ l2) = true.
Proof.
  induction l1 as [|a l1 IH]; cbn; intros H.
  - now apply andb_prop in H as [_ H].
  - apply andb_prop in H as [H1 H2]. rewrite (IH H2), andb_true_r.
    rewrite negb_true_iff in H1 |- *.
    rewrite existsb_app in H1 |- *. cbn in H1.
    apply orb_false_elim in H1 as [Ha Hb].
    apply orb_false_elim in Hb as [_ Hb]. now rewrite Ha, Hb.
Qed.

Lemma has_GoType_not_nil (T : GoType) (g : GoValue) :
  has_GoType T g = true -> is_nil g = false.
Proof. now destruct g. Qed.

Lemma range_SetMapIndex_drops_nil (T : GoType) (mg acc : list (string * GoValue)) :
  forallb (fun kg => is_nil (snd kg) || has_GoType T (snd kg)) mg = true ->
  distinct (keys acc ++ keys mg) = true ->
  range_SetMapIndex T mg acc = Ok (acc ++ without_nil mg).
Proof.
  unfold without_nil.
  revert acc. induction mg as [|[k g] mg IH]; intros acc Hall Hd; cbn.
  - now rewrite app_nil_r.
  - cbn in Hall, Hd. apply andb_prop in Hall as [Hg Hall].
    pose proof (distinct_app_cons _ _ _ Hd) as [Hk Hd'].
    destruct (is_nil g) eqn:Hnil.
    + destruct g; try discriminate Hnil. cbn.
      rewrite (filter_fresh k acc Hk). apply IH; auto.
      now apply distinct_app_drop in Hd.
    + cbn in Hg. unfold reflect.SetMapIndex. unfold has_GoType in Hg.
      destruct (reflect.TypeOf g); try discriminate. rewrite Hg. cbn.
      rewrite (assign_fresh k g acc Hk). rewrite IH; auto.
      * now rewrite <- app_assoc.
      * unfold keys in *. now rewrite map_app.
Qed.

Lemma range_msv_typ_decodes (T : GoType) (msv : list (string * tftypes.Value)) :
  forall (mg acc : list (string * GoValue)) (typ : option GoType),
    mapM decode_entry msv = Ok mg ->
    forallb (fun kg => is_nil (snd kg) || has_GoType T (snd kg)) mg = true ->
    typ = None \/ typ = Some T ->
    range_msv_typ (FromTerraform5Value zero) msv typ acc
    = Ok (match typ with
          | Some _ => typ
          | None => if existsb (fun kg => negb (is_nil (snd kg))) mg
                    then Some T else None
          end, assign_all mg acc).
Proof.
  induction msv as [|[k v] msv IH]; intros mg acc typ H Hall Htyp.
  - cbn in H. injection H as <-. cbn. now destruct Htyp as [-> | ->].
  - apply mapM_decode_entry_cons in H as (g & mg' & Hg & Hmg & ->).
    cbn in Hall. apply andb_prop in Hall as [HgT Hall].
    cbn [range_msv_typ].
    change (decoded (FromTerraform5Value zero) v) with (decode v).
    rewrite Hg. cbn [bind].
    destruct Htyp as [-> | ->].
    + destruct (is_nil g) eqn:Hnil.
      * destruct g; try discriminate Hnil. cbn [reflect.TypeOf].
        rewrite (IH mg' _ None Hmg Hall); auto.
      * cbn in HgT. apply has_GoType_TypeOf in HgT. rewrite HgT.
        rewrite (IH mg' _ (Some T) Hmg Hall); auto.
        cbn [existsb snd]. now rewrite Hnil.
    + rewrite (IH mg' _ (Some T) Hmg Hall); auto.
Qed.

(** X15: a Map whose values all decode, to nil or to values of one Go type
    [T], at least one of them not nil, is decoded to a [map[string]T]
    without the entries that decoded to nil: the null values of the Map
    are dropped, and the call succeeds. *)
Theorem decode_Map_drops_null (dt : GoPrimitive) (et : tftypes.Type_)
        (msv : list (string * tftypes.Value)) (mg : list (string * GoValue))
        (T : GoType) :
  distinct (keys msv) = true ->
  mapM decode_entry msv = Ok mg ->
  forallb (fun kg => is_nil (snd kg) || has_GoType T (snd kg)) mg = true ->
  existsb (fun kg => negb (is_nil (snd kg))) mg = true ->
  FromTerraform5Value dt (tftypes.mkValue (tftypes.Map et) (tftypes.attributes msv))
  = ({| Type_ := Some (tftypes.Map et); Value := string_map T (without_nil mg) |},
     returns_nil).
Proof.
  intros Hd Hm Hall Hex.
  pose proof (mapM_decode_entry_keys _ _ Hm) as Hk.
  assert (Hlen : Nat.ltb (length msv) 1 = false).
  { destruct msv; [|reflexivity]. cbn in Hm. injection Hm as <-. discriminate. }
  unfold_decoder. rewrite Hlen.
  rewrite (range_msv_typ_decodes T msv mg [] None Hm Hall) by now left.
  rewrite Hex. unfold_decoder.
  rewrite assign_all_nil by now rewrite Hk.
  rewrite (range_SetMapIndex_drops_nil T mg []); [reflexivity|exact Hall|].
  cbn. now rewrite Hk.
Qed.

Lemma decode_Map_drops_null_witness :
  FromTerraform5Value zero
    (tftypes.mkValue (tftypes.Map tftypes.String)
       (tftypes.attributes
          [("a", tftypes.mkValue tftypes.String tftypes.null);
           ("b", tftypes.mkValue tftypes.String (tftypes.raw (Vstring "x")));
           ("c", tftypes.mkValue tftypes.String tftypes.null)]))
  = ({| Type_ := Some (tftypes.Map tftypes.String);
        Value := string_map Tstring
                   (without_nil [("a", Vnil); ("b", Vstring "x"); ("c", Vnil)]) |},
     returns_nil).
Proof.
  apply (decode_Map_drops_null zero tftypes.String
           [("a", tftypes.mkValue tftypes.String tftypes.null);
            ("b", tftypes.mkValue tftypes.String (tftypes.raw (Vstring "x")));
            ("c", tftypes.mkValue tftypes.String tftypes.null)]
           [("a", Vnil); ("b", Vstring "x"); ("c", Vnil)] Tstring);
    reflexivity.
Defined.

Lemma range_Append_panics (T : GoType) (tmp acc : list GoValue) :
  forallb (has_GoType T) tmp = false ->
  exists p, range_Append T tmp acc = Panic p.
Proof.
  revert acc. induction tmp as [|g tmp IH]; intros acc H; cbn in *;
    try discriminate.
  unfold reflect.Append. unfold has_GoType in H.
  destruct (reflect.TypeOf g) as [t|]; [|now eexists].
  destruct (GoType_eqb t T); [|now eexists].
  cbn in *. now apply IH.
Qed.

(** X16: a List or Set whose elements all decode makes the decoder panic
    as soon as the decoded elements are not all of the Go type of the
    first one, the first one being nil included; [Value] is what it
    was. *)
Theorem decode_List_Set_mixed_panics (dt : GoPrimitive) (t : tftypes.Type_)
        (vals : list tftypes.Value) (g0 : GoValue) (gs : list GoValue) :
  tftypes.Is_List t || tftypes.Is_Set t = true ->
  decode_all vals = Ok (g0 :: gs) ->
  forallb (same_GoType_as g0) (g0 :: gs) = false ->
  exists p,
    FromTerraform5Value dt (tftypes.mkValue t (tftypes.values vals))
    = ({| Type_ := Some t; Value := Value dt |}, panics p).
Proof.
  intros Ht Hd Hmix.
  assert (Hlen : Nat.ltb (length vals) 1 = false).
  { destruct vals; [discriminate|reflexivity]. }
  assert (Hp : exists p,
             (sliceTyp <- reflect.SliceOf (reflect.TypeOf g0) ;;
              elem <- reflect.MakeSlice sliceTyp ;;
              res <- range_Append elem (g0 :: gs) [] ;;
              Ok (Vslice elem res)) = Panic p).
  { unfold same_GoType_as in Hmix.
    destruct (reflect.TypeOf g0) as [T|]; [|now eexists].
    destruct (range_Append_panics T (g0 :: gs) [] Hmix) as [p Hp].
    exists p. cbn -[range_Append]. now rewrite Hp. }
  destruct Hp as [p Hp]. exists p.
  destruct t; try discriminate Ht; unfold_decoder;
    rewrite Hlen, range_vals_mapM;
    change (mapM (decoded (FromTerraform5Value zero)) vals) with (decode_all vals);
    rewrite Hd; cbn -[range_Append reflect.TypeOf reflect.SliceOf];
    cbn -[range_Append reflect.TypeOf reflect.SliceOf] in Hp;
    rewrite Hp; reflexivity.
Qed.

Lemma decode_List_Set_mixed_panics_witness :
  exists p,
    FromTerraform5Value zero
      (tftypes.mkValue (tftypes.Set_ (tftypes.Map tftypes.Bool))
         (tftypes.values
            [tftypes.mkValue (tftypes.Map tftypes.Bool)
               (tftypes.attributes
                  [("k", tftypes.mkValue tftypes.Bool (tftypes.raw (Vbool true)))]);
             tftypes.mkValue (tftypes.Map tftypes.Bool) (tftypes.attributes [])]))
    = ({| Type_ := Some (tftypes.Set_ (tftypes.Map tftypes.Bool));
          Value := Value zero |}, panics p).
Proof.
  apply (decode_List_Set_mixed_panics zero (tftypes.Set_ (tftypes.Map tftypes.Bool))
           [tftypes.mkValue (tftypes.Map tftypes.Bool)
              (tftypes.attributes
                 [("k", tftypes.mkValue tftypes.Bool (tftypes.raw (Vbool true)))]);
            tftypes.mkValue (tftypes.Map tftypes.Bool) (tftypes.attributes [])]
           (string_map Tbool [("k", Vbool true)])
           [string_map Tinterface []]); reflexivity.
Defined.

(** ** What the encoder returns *)

Lemma Type_nested_ind (P : tftypes.Type_ -> Prop) :
  P tftypes.String -> P tftypes.Number -> P tftypes.Bool ->
  P tftypes.DynamicPseudoType ->
  (forall ats, Forall (fun kt => P (snd kt)) ats -> P (tftypes.Object ats)) ->
  (forall ets, Forall P ets -> P (tftypes.Tuple ets)) ->
  (forall et, P et -> P (tftypes.List et)) ->
  (forall et, P et -> P (tftypes.Set_ et)) ->
  (forall et, P et -> P (tftypes.Map et)) ->
  forall t, P t.
Proof.
  intros HS HN HB HD HO HT HL HSet HM.
  fix IH 1. intros [ | | | |ats|ets|et|et|et].
  - exact HS.
  - exact HN.
  - exact HB.
  - exact HD.
  - apply HO.
    induction ats as [|[k t] ats IHats]; constructor; [apply IH | exact IHats].
  - apply HT.
    induction ets as [|t ets IHets]; constructor; [apply IH | exact IHets].
  - apply HL, IH.
  - apply HSet, IH.
  - apply HM, IH.
Qed.

Lemma Type_eqb_refl : forall t : tftypes.Type_, tftypes.Type_eqb t t = true.
Proof.
  induction t as [ | | | |ats IH|ets IH|et IH|et IH|et IH] using Type_nested_ind;
    cbn; auto.
  - induction IH as [|[k t] ats Ht _ IHats]; auto.
    cbn in Ht. now rewrite String.eqb_refl, Ht, IHats.
  - induction IH as [|t ets Ht _ IHets]; auto. now rewrite Ht, IHets.
Qed.

Lemma lookup_Forall {A} (P : A -> Prop) (k : string) (m : list (string * A))
      (a : A) :
  Forall (fun ka => P (snd ka)) m -> lookup k m = Some a -> P a.
Proof.
  induction 1 as [|[k' a'] m Ha _ IH]; cbn; try discriminate.
  destruct (String.eqb k k'); auto. intros H. now injection H as <-.
Qed.

Lemma Forall_assign {A} (R : string * A -> Prop) (k : string) (a : A)
      (m : list (string * A)) :
  Forall R m -> R (k, a) -> Forall R (assign k a m).
Proof.
  induction 1 as [|[k' a'] m Hka Hm IH]; cbn; intros Hk.
  - now constructor.
  - destruct (String.eqb k k'); constructor; auto.
Qed.

Lemma range_ElementTypes_encoded (x : GoValue) (ets : list tftypes.Type_) :
  Forall (fun t => forall i v, marshal i t = Ok v -> encoded_as t v) ets ->
  forall (n : nat) (acc vals : list tftypes.Value),
    range_ElementTypes marshal x ets n acc = Ok vals ->
    exists os, vals = acc ++ os /\ Forall2 encoded_as ets os.
Proof.
  induction 1 as [|t ets Ht _ IH]; intros n acc vals H; cbn in H.
  - injection H as <-. exists []. split; [now rewrite app_nil_r|constructor].
  - destruct (reflect.Index x n) as [x0| |]; try discriminate. cbn in H.
    destruct (marshal x0 t) as [o| |] eqn:Ho; try discriminate. cbn in H.
    destruct (IH _ _ _ H) as (os & -> & Hos).
    exists (o :: os). split; [now rewrite <- app_assoc|].
    constructor; auto. now apply (Ht x0).
Qed.

Lemma range_Len_encoded (et : tftypes.Type_) :
  (forall i v, marshal i et = Ok v -> encoded_as et v) ->
  forall (xs : list GoValue) (acc vals : list tftypes.Value),
    range_Len marshal et xs acc = Ok vals ->
    exists os, vals = acc ++ os /\ Forall (encoded_as et) os.
Proof.
  intros Het. induction xs as [|x xs IH]; intros acc vals H; cbn in H.
  - injection H as <-. exists []. split; [now rewrite app_nil_r|constructor].
  - destruct (marshal x et) as [o| |] eqn:Ho; try discriminate. cbn in H.
    destruct (IH _ _ H) as (os & -> & Hos).
    exists (o :: os). split; [now rewrite <- app_assoc|].
    constructor; auto. now apply (Het x).
Qed.

Lemma range_MapKeys_Map_encoded (et : tftypes.Type_) (key elem : GoType) :
  (forall i v, marshal i et = Ok v -> encoded_as et v) ->
  forall (kvs : list (GoValue * GoValue)) (acc vals : list (string * tftypes.Value)),
    range_MapKeys_Map marshal et key elem kvs acc = Ok vals ->
    Forall (fun kv => encoded_as et (snd kv)) acc ->
    Forall (fun kv => encoded_as et (snd kv)) vals.
Proof.
  intros Het. induction kvs as [|[e x] kvs IH]; intros acc vals H Hacc;
    cbn in H.
  - now injection H as <-.
  - destruct (reflect.Type_Kind key); try discriminate.
    destruct (marshal x et) as [o| |] eqn:Ho; try discriminate.
    destruct (assert_string e) as [k| |]; try discriminate. cbn in H.
    apply (IH _ _ H). apply Forall_assign; auto. now apply (Het x).
Qed.

Lemma range_MapKeys_Object_encoded (ats : list (string * tftypes.Type_))
      (key elem : GoType) :
  Forall (fun kt => forall i v, marshal i (snd kt) = Ok v ->
                                encoded_as (snd kt) v) ats ->
  forall (kvs : list (GoValue * GoValue)) (acc vals : list (string * tftypes.Value)),
    range_MapKeys_Object marshal ats key elem kvs acc = Ok vals ->
    Forall (fun kv => exists t, lookup (fst kv) ats = Some t
                                /\ encoded_as t (snd kv)) acc ->
    Forall (fun kv => exists t, lookup (fst kv) ats = Some t
                                /\ encoded_as t (snd kv)) vals.
Proof.
  intros Hats. induction kvs as [|[e x] kvs IH]; intros acc vals H Hacc;
    cbn in H.
  - now injection H as <-.
  - destruct (reflect.Type_Kind key); try discriminate.
    destruct (assert_string e) as [k| |]; try discriminate. cbn in H.
    rewrite marshal_attribute_lookup in H.
    destruct (lookup k ats) as [t|] eqn:Hl; try discriminate.
    destruct (marshal x t) as [o| |] eqn:Ho; try discriminate.
    apply (IH _ _ H). apply Forall_assign; auto.
    exists t. split; auto.
    apply (lookup_Forall
             (fun t => forall i v, marshal i t = Ok v -> encoded_as t v)
             k ats t Hats Hl x o Ho).
Qed.

Lemma shaped_elements (et : tftypes.Type_) (os : list tftypes.Value) :
  Forall (encoded_as et) os ->
  forallb (fun v' => has_type et v' && shaped_by_type v') os = true.
Proof.
  induction 1 as [|o os [Ht Hs] _ IH]; [reflexivity|].
  cbn [forallb]. unfold has_type at 1.
  rewrite Ht, Type_eqb_refl, Hs. exact IH.
Qed.

Lemma shaped_positions (ets : list tftypes.Type_) (os : list tftypes.Value) :
  Forall2 encoded_as ets os ->
  Nat.eqb (length os) (length ets)
  && forallb (fun tv => has_type (fst tv) (snd tv)) (combine ets os)
  && forallb shaped_by_type os = true.
Proof.
  induction 1 as [|t o ets os [Ht Hs] _ IH]; [reflexivity|].
  apply andb_prop in IH as [IH H3]. apply andb_prop in IH as [H1 H2].
  cbn [length combine forallb fst snd Nat.eqb]. unfold has_type at 1.
  rewrite H1, Ht, Type_eqb_refl, H2, Hs, H3. reflexivity.
Qed.

Lemma shaped_entries (et : tftypes.Type_) (vals : list (string * tftypes.Value)) :
  Forall (fun kv => encoded_as et (snd kv)) vals ->
  forallb (fun kv => has_type et (snd kv) && shaped_by_type (snd kv)) vals = true.
Proof.
  induction 1 as [|[k o] vals [Ht Hs] _ IH]; [reflexivity|].
  cbn [forallb snd] in *. unfold has_type at 1.
  rewrite Ht, Type_eqb_refl, Hs. exact IH.
Qed.

Lemma shaped_attributes (ats : list (string * tftypes.Type_))
      (vals : list (string * tftypes.Value)) :
  Forall (fun kv => exists t, lookup (fst kv) ats = Some t
                              /\ encoded_as t (snd kv)) vals ->
  forallb (fun kv =>
             match lookup (fst kv) ats with
             | Some t' => has_type t' (snd kv)
             | None => false
             end
             && shaped_by_type (snd kv)) vals = true.
Proof.
  induction 1 as [|[k o] vals (t & Hl & Ht & Hs) _ IH]; [reflexivity|].
  cbn [forallb fst snd] in *. rewrite Hl. unfold has_type at 1.
  rewrite Ht, Type_eqb_refl, Hs. exact IH.
Qed.

(** X17: whatever the dynamic value, a value the encoder returns carries
    the descriptor it was encoded against and is shaped by it all the way
    down: a Tuple has one value for each element type of the descriptor,
    of that type; the values of a List, Set or Map have the element type;
    and every attribute of an Object is an attribute name of the
    descriptor, with a value of that attribute's type. *)
Theorem marshal_result_shaped_by_descriptor : forall (p : tftypes.Type_)
    (i : GoValue) (v : tftypes.Value),
  marshal i p = Ok v -> tftypes.typ v = p /\ shaped_by_type v = true.
Proof.
  change (forall p i v, marshal i p = Ok v -> encoded_as p v).
  induction p as [ | | | |ats IH|ets IH|et IH|et IH|et IH] using Type_nested_ind;
    intros i v H.
  - destruct i; cbn in H; try discriminate; injection H as <-;
      split; reflexivity.
  - destruct i; cbn in H; try discriminate; injection H as <-;
      split; reflexivity.
  - destruct i; cbn in H; try discriminate; injection H as <-;
      split; reflexivity.
  - discriminate.
  - change (marshal i (tftypes.Object ats)) with (marshalObject marshal ats i) in H.
    unfold marshalObject in H. destruct i; try discriminate.
    destruct (range_MapKeys_Object marshal ats key elem kvs []) as [vals| |] eqn:E;
      try discriminate.
    cbn in H. injection H as <-. split; [reflexivity|].
    exact (shaped_attributes ats vals
             (range_MapKeys_Object_encoded ats key elem IH kvs [] vals E
                (Forall_nil _))).
  - change (marshal i (tftypes.Tuple ets)) with (marshalTuple marshal i ets) in H.
    unfold marshalTuple in H. destruct (reflect.Kind_of i); try discriminate.
    destruct (range_ElementTypes marshal i ets 0 []) as [vals| |] eqn:E;
      try discriminate.
    cbn in H. injection H as <-. split; [reflexivity|].
    destruct (range_ElementTypes_encoded i ets IH 0 [] vals E) as (os & -> & Hos).
    exact (shaped_positions ets os Hos).
  - change (marshal i (tftypes.List et)) with (marshalList marshal et i) in H.
    unfold marshalList in H. destruct (reflect.Kind_of i); try discriminate.
    destruct (range_Len marshal et (reflect.elements i) []) as [vals| |] eqn:E;
      try discriminate.
    cbn in H. injection H as <-. split; [reflexivity|].
    destruct (range_Len_encoded et IH _ [] vals E) as (os & -> & Hos).
    exact (shaped_elements et os Hos).
  - change (marshal i (tftypes.Set_ et)) with (marshalSet marshal et i) in H.
    unfold marshalSet in H. destruct (reflect.Kind_of i); try discriminate.
    destruct (range_Len marshal et (reflect.elements i) []) as [vals| |] eqn:E;
      try discriminate.
    cbn in H. injection H as <-. split; [reflexivity|].
    destruct (range_Len_encoded et IH _ [] vals E) as (os & -> & Hos).
    exact (shaped_elements et os Hos).
  - change (marshal i (tftypes.Map et)) with (marshalMap marshal et i) in H.
    unfold marshalMap in H. destruct i; try discriminate.
    destruct (range_MapKeys_Map marshal et key elem kvs []) as [vals| |] eqn:E;
      try discriminate.
    cbn in H. injection H as <-. split; [reflexivity|].
    exact (shaped_entries et vals
             (range_MapKeys_Map_encoded et key elem IH kvs [] vals E
                (Forall_nil _))).
Qed.

Lemma marshal_result_shaped_by_descriptor_witness :
  tftypes.typ
    (tftypes.mkValue (tftypes.Tuple [tftypes.String; tftypes.List tftypes.Bool])
       (tftypes.values
          [tftypes.mkValue tftypes.String (tftypes.raw (Vstring "a"));
           tftypes.mkValue (tftypes.List tftypes.Bool)
             (tftypes.values
                [tftypes.mkValue tftypes.Bool (tftypes.raw (Vbool true))])]))
  = tftypes.Tuple [tftypes.String; tftypes.List tftypes.Bool]
  /\ shaped_by_type
       (tftypes.mkValue (tftypes.Tuple [tftypes.String; tftypes.List tftypes.Bool])
          (tftypes.values
             [tftypes.mkValue tftypes.String (tftypes.raw (Vstring "a"));
              tftypes.mkValue (tftypes.List tftypes.Bool)
                (tftypes.values
                   [tftypes.mkValue tftypes.Bool (tftypes.raw (Vbool true))])]))
     = true.
Proof.
  apply (marshal_result_shaped_by_descriptor
           (tftypes.Tuple [tftypes.String; tftypes.List tftypes.Bool])
           (Vslice Tinterface [Vstring "a"; Vslice Tbool [Vbool true]; Vnil])
           (tftypes.mkValue (tftypes.Tuple [tftypes.String; tftypes.List tftypes.Bool])
              (tftypes.values
                 [tftypes.mkValue tftypes.String (tftypes.raw (Vstring "a"));
                  tftypes.mkValue (tftypes.List tftypes.Bool)
                    (tftypes.values
                       [tftypes.mkValue tftypes.Bool (tftypes.raw (Vbool true))])]))).
  reflexivity.
Defined.

(** X18: encoding against a String, Number or Bool descriptor does not
    compare the dynamic value with the descriptor: nil becomes the null
    value, a string, a [*big.Float] or a bool is stored as it is under any
    of the three, and every other dynamic value makes [NewValue] panic.
    Decoding what was stored gives nil for the null value; it gives the
    stored value back when that has the Go representation of the
    descriptor's kind, a number rounded to 53 bits; and it fails with the
    error of [As] otherwise. *)
Theorem marshal_primitive_then_decode (t : tftypes.Type_) (i j : GoValue) :
  tftypes.is_primitive t = true ->
  stored_by_NewValue i = true ->
  stored_by_NewValue j = false ->
  marshal i t = Ok (tftypes.mkValue t (tftypes.of_interface i))
  /\ decode (tftypes.mkValue t (tftypes.of_interface i))
     = (if is_nil i then Ok Vnil
        else if representation_of t i then Ok (read_by_As i)
        else Err (As_error (As_target t)))
  /\ marshal j t = Panic NewValue_unknown_type.
Proof.
  intros Ht Hi Hj. repeat split.
  - destruct t; try discriminate; destruct i; try discriminate; reflexivity.
  - destruct t; try discriminate; destruct i; try discriminate; reflexivity.
  - destruct t; try discriminate; destruct j; try discriminate; reflexivity.
Qed.

Lemma marshal_primitive_then_decode_witness :
  marshal (VbigFloat {| mant := 9007199254740993; exp := 0 |}) tftypes.Number
  = Ok (tftypes.mkValue tftypes.Number
          (tftypes.raw (VbigFloat {| mant := 9007199254740993; exp := 0 |})))
  /\ decode (tftypes.mkValue tftypes.Number
               (tftypes.raw (VbigFloat {| mant := 9007199254740993; exp := 0 |})))
     = Ok (VbigFloat {| mant := 1; exp := 53 |})
  /\ marshal (Vint 3) tftypes.Number = Panic NewValue_unknown_type.
Proof.
  apply (marshal_primitive_then_decode tftypes.Number
           (VbigFloat {| mant := 9007199254740993; exp := 0 |}) (Vint 3));
    reflexivity.
Defined.

(** ** Empty collections and Maps of nulls *)

(** X19: the round trip holds for a known List, Set or Map that is empty:
    it is decoded to an empty sequence or mapping of [interface{}], and
    encoding that against the value's type gives the value back. *)
Theorem empty_collection_round_trip (dt : GoPrimitive) (et : tftypes.Type_) :
  (exists g,
      FromTerraform5Value dt (tftypes.mkValue (tftypes.List et) (tftypes.values []))
      = ({| Type_ := Some (tftypes.List et); Value := g |}, returns_nil)
      /\ ToTerraform5Value {| Type_ := Some (tftypes.List et); Value := g |}
         = Ok (tftypes.mkValue (tftypes.List et) (tftypes.values [])))
  /\ (exists g,
         FromTerraform5Value dt (tftypes.mkValue (tftypes.Set_ et) (tftypes.values []))
         = ({| Type_ := Some (tftypes.Set_ et); Value := g |}, returns_nil)
         /\ ToTerraform5Value {| Type_ := Some (tftypes.Set_ et); Value := g |}
            = Ok (tftypes.mkValue (tftypes.Set_ et) (tftypes.values [])))
  /\ (exists g,
         FromTerraform5Value dt
           (tftypes.mkValue (tftypes.Map et) (tftypes.attributes []))
         = ({| Type_ := Some (tftypes.Map et); Value := g |}, returns_nil)
         /\ ToTerraform5Value {| Type_ := Some (tftypes.Map et); Value := g |}
            = Ok (tftypes.mkValue (tftypes.Map et) (tftypes.attributes []))).
Proof.
  repeat split; eexists; split; reflexivity.
Qed.

(** X20: a Map that has entries and whose values all decode to nil makes
    the decoder panic: no value gives the element type, and [MapOf] is
    called on the nil Type. *)
Theorem decode_Map_of_nulls_panics (dt : GoPrimitive) (et : tftypes.Type_)
        (msv : list (string * tftypes.Value)) (mg : list (string * GoValue)) :
  Nat.ltb 0 (length msv) = true ->
  mapM decode_entry msv = Ok mg ->
  forallb (fun kg => is_nil (snd kg)) mg = true ->
  FromTerraform5Value dt (tftypes.mkValue (tftypes.Map et) (tftypes.attributes msv))
  = ({| Type_ := Some (tftypes.Map et); Value := Value dt |},
     panics reflect_nil_Type).
Proof.
  intros Hlen Hm Hnil.
  assert (Hall : forallb (fun kg => is_nil (snd kg) || has_GoType Tinterface (snd kg))
                         mg = true).
  { clear - Hnil. induction mg as [|kg mg IH]; cbn in *; auto.
    apply andb_prop in Hnil as [H1 H2]. now rewrite H1, IH. }
  assert (Hex : existsb (fun kg => negb (is_nil (snd kg))) mg = false).
  { clear - Hnil. induction mg as [|kg mg IH]; cbn in *; auto.
    apply andb_prop in Hnil as [H1 H2]. now rewrite H1, IH. }
  unfold_decoder. rewrite (ltb_length_false _ Hlen).
  rewrite (range_msv_typ_decodes Tinterface msv mg [] None Hm Hall) by now left.
  rewrite Hex. reflexivity.
Qed.

Lemma decode_Map_of_nulls_panics_witness :
  FromTerraform5Value zero
    (tftypes.mkValue (tftypes.Map tftypes.Number)
       (tftypes.attributes
          [("a", tftypes.mkValue tftypes.Number tftypes.null);
           ("b", tftypes.mkValue tftypes.Number tftypes.null)]))
  = ({| Type_ := Some (tftypes.Map tftypes.Number); Value := Value zero |},
     panics reflect_nil_Type).
Proof.
  apply (decode_Map_of_nulls_panics zero tftypes.Number
           [("a", tftypes.mkValue tftypes.Number tftypes.null);
            ("b", tftypes.mkValue tftypes.Number tftypes.null)]
           [("a", Vnil); ("b", Vnil)]); reflexivity.
Defined.
